(** * EbookSearching: a shallow embedding of [main.py]

    The script queries a custom search API once per site of a site list,
    pages through the answers, tags and aggregates the results, and saves
    them as CSV.  This development embeds the functions of [main.py] as
    Rocq functions and states the properties of its specification over them.

    Modelling conventions.
    - A Python [str] is a [string], one [ascii] per code point; the model
      covers the texts whose code points are below 256.  Every operation of
      the script maps such texts to such texts.
    - A Python [int] is a [Z].
    - Python values that travel through the program unchanged (the decoded
      JSON of an API answer, the fields of a result) are terms of [pyval].
    - The outside world (the search API, the file store, the console, the
      clock) is a record [world] that every effectful function threads
      explicitly; a function either returns a value or raises an exception
      ([outcome]).
    - What the script takes from its libraries without this development
      defining it ([int] of a text, [repr] of a value, the text that pandas
      writes for a cell of a table) is a parameter of the functions that use
      it.  The CSV text is the one the writer of the [csv] module produces,
      which pandas calls, on a system whose line terminator is LF; whether
      that writer quotes a carriage return depends on the version of
      CPython and is a parameter too. *)

From Stdlib Require Import ZArith NArith Ascii DecimalString Lia.
From stdpp Require Import gmap strings list.

Local Open Scope Z_scope.

#[local] Set Warnings "-register-all".

(** ** Text *)

Module Str.

(** The double quote character (code point 34). *)
Definition dquote : ascii := "034"%char.

Definition code (c : ascii) : N := N_of_ascii c.

Definition between (lo hi : N) (c : ascii) : bool :=
  ((lo <=? code c) && (code c <=? hi))%N.

Definition is_lower : ascii -> bool := between 97 122.
Definition is_upper : ascii -> bool := between 65 90.
Definition is_digit : ascii -> bool := between 48 57.
Definition is_letter (c : ascii) : bool := is_lower c || is_upper c.

(** [str.isspace] on the code points below 256: TAB..CR, FS..US, space,
    NEL (133) and the no-break space (160). *)
Definition isspace (c : ascii) : bool :=
  between 9 13 c || between 28 32 c || (code c =? 133)%N || (code c =? 160)%N.

(** Truth value of a [str]: non-empty. *)
Definition truthy (s : string) : bool :=
  match s with EmptyString => false | String _ _ => true end.

Fixpoint lstrip (s : string) : string :=
  match s with
  | EmptyString => EmptyString
  | String c s' => if isspace c then lstrip s' else s
  end.

Fixpoint rstrip (s : string) : string :=
  match s with
  | EmptyString => EmptyString
  | String c s' =>
      match rstrip s' with
      | EmptyString => if isspace c then EmptyString else String c EmptyString
      | r => String c r
      end
  end.

(** [s.strip()] *)
Definition strip (s : string) : string := rstrip (lstrip s).

(** [s.split(sep)] for a one-character separator. *)
Fixpoint split (sep : ascii) (s : string) : list string :=
  match s with
  | EmptyString => [EmptyString]
  | String c s' =>
      if Ascii.eqb c sep then EmptyString :: split sep s'
      else match split sep s' with
           | h :: t => String c h :: t
           | [] => [String c EmptyString]
           end
  end.

(** [sep.join(parts)] *)
Fixpoint join (sep : string) (parts : list string) : string :=
  match parts with
  | [] => EmptyString
  | [p] => p
  | p :: rest => p +:+ sep +:+ join sep rest
  end.

(** [str(n)] for an [int]. *)
Definition of_Z (n : Z) : string := NilZero.string_of_int (Z.to_int n).

Fixpoint is_prefix (p s : string) : bool :=
  match p, s with
  | EmptyString, _ => true
  | String a p', String b s' => Ascii.eqb a b && is_prefix p' s'
  | String _ _, EmptyString => false
  end.

(** [p in s] for two [str]. *)
Fixpoint contains (p s : string) : bool :=
  is_prefix p s ||
  match s with
  | EmptyString => false
  | String _ s' => contains p s'
  end.

Fixpoint chars (s : string) : list ascii :=
  match s with
  | EmptyString => []
  | String c s' => c :: chars s'
  end.

Fixpoint flat_map_chars (f : ascii -> string) (s : string) : string :=
  match s with
  | EmptyString => EmptyString
  | String c s' => f c +:+ flat_map_chars f s'
  end.

(** *** [urllib.parse.quote] with its default [safe='/'] *)

Definition hex_digit (n : N) : ascii :=
  ascii_of_N (if (n <? 10)%N then 48 + n else 55 + n)%N.

Definition percent (byte : N) : string :=
  String "%"%char
    (String (hex_digit (byte / 16)%N)
       (String (hex_digit (byte mod 16)%N) EmptyString)).

(** Letters, digits and [_.-~] are never quoted; [/] is the default
    [safe] argument. *)
Definition unreserved (c : ascii) : bool :=
  is_letter c || is_digit c
  || Ascii.eqb c "_" || Ascii.eqb c "." || Ascii.eqb c "-" || Ascii.eqb c "~"
  || Ascii.eqb c "/".

(** The UTF-8 bytes of a code point below 256. *)
Definition utf8 (c : ascii) : list N :=
  if (code c <? 128)%N then [code c]
  else [(192 + code c / 64)%N; (128 + code c mod 64)%N].

Definition quote_char (c : ascii) : string :=
  if unreserved c then String c EmptyString
  else foldr (fun b acc => percent b +:+ acc) EmptyString (utf8 c).

Definition quote (s : string) : string := flat_map_chars quote_char s.

End Str.

(** ** The query builder *)

(** Truth value of the [filetypes] argument: [None] and the empty list (and
    the empty default) are false. *)
Definition filetypes_given (filetypes : option (list string)) : list string :=
  match filetypes with
  | Some fts => fts
  | None => []
  end.

(** The local variable [query] of [build_query] when control reaches the
    [return]: the query before percent-encoding. *)
Definition build_query_text
    (keywords : list string) (site : string) (filetypes : option (list string))
    : string :=
  let quoted keyword :=
    String Str.dquote (keyword +:+ String Str.dquote EmptyString) in
  let keyword_query := Str.join " " (quoted <$> keywords) in
  let query := EmptyString in
  let query :=
    if Str.truthy site then query +:+ "site:" +:+ site +:+ " " else query in
  let query := query +:+ keyword_query in
  match filetypes_given filetypes with
  | [] => query
  | fts =>
      let filetypes_query :=
        Str.join " OR " ((fun ft => "filetype:" +:+ ft) <$> fts) in
      query +:+ " " +:+ filetypes_query
  end.

(** [EbookSearcher.build_query] *)
Definition build_query
    (keywords : list string) (site : string) (filetypes : option (list string))
    : string :=
  Str.quote (build_query_text keywords site filetypes).

(** ** Python values *)

(** The values the script handles without looking inside: decoded JSON and
    the fields of a result.  A [float] is kept as its literal. *)
Inductive pyval :=
| PNone
| PBool (b : bool)
| PInt (n : Z)
| PFloat (literal : string)
| PStr (s : string)
| PList (items : list pyval)
| PDict (entries : list (string * pyval)).

(** A [dict] with [str] keys, in insertion order. *)
Abbreviation pydict := (list (string * pyval)).

Definition type_name (v : pyval) : string :=
  match v with
  | PNone => "NoneType"
  | PBool _ => "bool"
  | PInt _ => "int"
  | PFloat _ => "float"
  | PStr _ => "str"
  | PList _ => "list"
  | PDict _ => "dict"
  end.

(** [d.get(key)] *)
Fixpoint dict_get (key : string) (d : pydict) : option pyval :=
  match d with
  | [] => None
  | (k, v) :: d' => if String.eqb k key then Some v else dict_get key d'
  end.

(** [d[key] = v]: an existing key keeps its position, a new one goes last. *)
Fixpoint dict_set (key : string) (v : pyval) (d : pydict) : pydict :=
  match d with
  | [] => [(key, v)]
  | (k, v') :: d' =>
      if String.eqb k key then (k, v) :: d' else (k, v') :: dict_set key v d'
  end.

Definition dict_keys (d : pydict) : list string := fst <$> d.

(** [len(l)] *)
Definition len {A} (l : list A) : Z := Z.of_nat (length l).

(** [l[:n]]: the first [n] elements, or all but the last [-n] when [n] is
    negative. *)
Definition slice_to {A} (l : list A) (n : Z) : list A :=
  if 0 <=? n then take (Z.to_nat n) l else take (Z.to_nat (len l + n)) l.

(** ** Exceptions, the world, and the monad of effects *)

(** Exception classes, all derived from [Exception]. *)
Inductive exn_class :=
| FileNotFoundError
| ValueError
| RuntimeError
| ImportError
| TypeError
| AttributeError
| OtherError (name : string).

(** An exception with the text that [str(e)] gives. *)
Record exn := Exn { exn_cls : exn_class; exn_msg : string }.

Inductive outcome (A : Type) :=
| Returns (a : A)
| Raises (e : exn).
Arguments Returns {A} a.
Arguments Raises {A} e.

(** The parameters of one GET request to the search endpoint. *)
Record request := Request {
  req_url : string;
  req_key : string;
  req_cx : string;
  req_q : string;
  req_start : Z;
  req_num : Z
}.

(** What [requests.get] hands back: the status code and what
    [response.json()] gives, a decoded body or the decoder's exception. *)
Record response := Response {
  status_code : Z;
  json_body : outcome pyval
}.

(** [requests.get] returns a response or raises (connection errors and the
    like). *)
Inductive http_outcome :=
| HttpRaise (e : exn)
| HttpReply (r : response).

(** The world.  The remote API is any function of the requests received so
    far, the newest last; [sent] logs the requests made; [fs] holds the
    regular text files by path; [environ] is the process environment and
    [dotenv] the assignments of the [.env] file; [console] collects the
    printed lines and [slept] the seconds slept. *)
Record world := World {
  api : list request -> http_outcome;
  sent : list request;
  fs : gmap string string;
  environ : gmap string string;
  dotenv : gmap string string;
  console : list string;
  slept : Z
}.

Definition M (A : Type) : Type := world -> outcome A * world.

#[global] Instance M_ret : MRet M := fun A a w => (Returns a, w).

#[global] Instance M_bind : MBind M := fun A B k c w =>
  match c w with
  | (Returns a, w') => k a w'
  | (Raises e, w') => (Raises e, w')
  end.

Definition raise {A} (e : exn) : M A := fun w => (Raises e, w).

(** [try: body except Exception as e: handler e]; what [body] did to the
    world before raising stays done. *)
Definition try_except {A} (body : M A) (handler : exn -> M A) : M A := fun w =>
  match body w with
  | (Raises e, w') => handler e w'
  | r => r
  end.

Definition lift {A} (o : outcome A) : M A := fun w => (o, w).

Definition set_sent (l : list request) (w : world) : world :=
  World (api w) l (fs w) (environ w) (dotenv w) (console w) (slept w).
Definition set_fs (m : gmap string string) (w : world) : world :=
  World (api w) (sent w) m (environ w) (dotenv w) (console w) (slept w).
Definition set_environ (m : gmap string string) (w : world) : world :=
  World (api w) (sent w) (fs w) m (dotenv w) (console w) (slept w).
Definition set_console (l : list string) (w : world) : world :=
  World (api w) (sent w) (fs w) (environ w) (dotenv w) l (slept w).
Definition set_slept (n : Z) (w : world) : world :=
  World (api w) (sent w) (fs w) (environ w) (dotenv w) (console w) n.

(** [print(line)] *)
Definition print (line : string) : M unit := fun w =>
  (Returns tt, set_console (console w ++ [line]) w).

(** [time.sleep(seconds)] *)
Definition sleep (seconds : Z) : M unit := fun w =>
  (Returns tt, set_slept (slept w + seconds) w).

(** [requests.get(url, params=params)]: the request is logged and the API
    answers it given everything it has received. *)
Definition requests_get (r : request) : M response := fun w =>
  let w' := set_sent (sent w ++ [r]) w in
  match api w (sent w ++ [r]) with
  | HttpRaise e => (Raises e, w')
  | HttpReply resp => (Returns resp, w')
  end.

(** [for x in xs: f x], collecting what [f] returns. *)
Fixpoint for_each {A B} (f : A -> M B) (xs : list A) : M (list B) :=
  match xs with
  | [] => mret []
  | x :: xs' => y ← f x; ys ← for_each f xs'; mret (y :: ys)
  end.

(** ** Python operations on decoded JSON *)

Definition type_error (msg : string) : exn := Exn TypeError msg.

(** [key in data] *)
Definition py_contains (key : string) (data : pyval) : outcome bool :=
  match data with
  | PDict d => Returns (bool_decide (key ∈ dict_keys d))
  | PList l =>
      Returns (existsb
                 (fun v => match v with PStr s => String.eqb s key | _ => false end)
                 l)
  | PStr s => Returns (Str.contains key s)
  | v =>
      Raises (type_error
                ("argument of type '" +:+ type_name v +:+ "' is not iterable"))
  end.

(** [data[key]] for a [str] key *)
Definition py_getitem (data : pyval) (key : string) : outcome pyval :=
  match data with
  | PDict d =>
      match dict_get key d with
      | Some v => Returns v
      | None => Raises (Exn (OtherError "KeyError") ("'" +:+ key +:+ "'"))
      end
  | PList _ =>
      Raises (type_error "list indices must be integers or slices, not str")
  | PStr _ => Raises (type_error "string indices must be integers, not 'str'")
  | v =>
      Raises (type_error ("'" +:+ type_name v +:+ "' object is not subscriptable"))
  end.

(** The elements a [for] loop over [v] visits. *)
Definition py_iter (v : pyval) : outcome (list pyval) :=
  match v with
  | PList l => Returns l
  | PDict d => Returns (PStr <$> dict_keys d)
  | PStr s => Returns ((fun c => PStr (String c EmptyString)) <$> Str.chars s)
  | v => Raises (type_error ("'" +:+ type_name v +:+ "' object is not iterable"))
  end.

(** [item.get(key, fallback)] *)
Definition py_get (item : pyval) (key : string) (fallback : pyval) : outcome pyval :=
  match item with
  | PDict d => Returns (default fallback (dict_get key d))
  | v =>
      Raises (Exn AttributeError
                ("'" +:+ type_name v +:+ "' object has no attribute 'get'"))
  end.

(** ** The searcher *)

(** The attributes of an [EbookSearcher]. *)
Record EbookSearcher := {
  api_key : string;
  search_engine_id : string;
  base_url : string;
  ebook_sites_file : string;
  ebook_sites : list string
}.

(** The [dict] built for one item of an API answer. *)
Definition make_result (item : pyval) : M pydict :=
  title ← lift (py_get item "title" (PStr EmptyString));
  link ← lift (py_get item "link" (PStr EmptyString));
  snippet ← lift (py_get item "snippet" (PStr EmptyString));
  displayLink ← lift (py_get item "displayLink" (PStr EmptyString));
  formattedUrl ← lift (py_get item "formattedUrl" (PStr EmptyString));
  mret [("title", title); ("link", link); ("snippet", snippet);
        ("displayLink", displayLink); ("formattedUrl", formattedUrl)].

(** How one turn of the [while] loop of [_perform_search] ends: with a
    [break], or at its last statement with the results extended. *)
Inductive turn :=
| Break
| Next (results : list pydict).

(** The [params] of the request of one turn of the loop. *)
Definition page_request
    (self : EbookSearcher) (query : string) (max_results : Z)
    (results : list pydict) (start_index : Z) : request :=
  {| req_url := base_url self;
     req_key := api_key self;
     req_cx := search_engine_id self;
     req_q := query;
     req_start := start_index;
     req_num := Z.min 10 (max_results - len results) |}.

(** The body of the [while] loop, up to [start_index += 10]. *)
Definition search_page
    (self : EbookSearcher) (query : string) (max_results : Z)
    (results : list pydict) (start_index : Z) : M turn :=
  let params := page_request self query max_results results start_index in
  response ← requests_get params;
  if negb (status_code response =? 200) then
    print ("API Error: " +:+ Str.of_Z (status_code response));;
    mret Break
  else
    data ← lift (json_body response);
    has_items ← lift (py_contains "items" data);
    if negb has_items then mret Break
    else
      items ← lift (py_getitem data "items");
      elements ← lift (py_iter items);
      new ← for_each make_result elements;
      mret (Next (results ++ new)).

(** The [while] loop of [_perform_search] followed by its [return], from
    the loop state [(results, start_index)].  [fuel] bounds the number of
    turns; with no fuel left the loop test still runs. *)
Fixpoint search_loop
    (fuel : nat) (self : EbookSearcher) (query : string) (max_results : Z)
    (results : list pydict) (start_index : Z) : M (list pydict) :=
  if (len results <? max_results) && (start_index <=? 91) then
    match fuel with
    | O => mret (slice_to results max_results)
    | S fuel' =>
        t ← search_page self query max_results results start_index;
        match t with
        | Break => mret (slice_to results max_results)
        | Next results' =>
            search_loop fuel' self query max_results results' (start_index + 10)
        end
    end
  else mret (slice_to results max_results).

(** The turns the loop can take from [start_index]: one per offset up to 91. *)
Definition turns_from (start_index : Z) : nat :=
  Z.to_nat ((101 - start_index) / 10).

(** [EbookSearcher._perform_search] *)
Definition _perform_search
    (self : EbookSearcher) (query : string) (max_results : Z)
    : M (list pydict) :=
  search_loop (turns_from 1) self query max_results [] 1.

(** The two assignments that tag a result in [search_books]. *)
Definition tag (site : string) (keywords : list string) (result : pydict) : pydict :=
  dict_set "search_keywords" (PList (PStr <$> keywords))
    (dict_set "source_site" (PStr site) result).

(** The [for site in sites] loop of [search_books], from the current value
    of [all_results]. *)
Fixpoint search_sites
    (self : EbookSearcher) (keywords : list string) (sites : list string)
    (max_results_per_site : Z) (filetypes : option (list string))
    (all_results : list pydict) : M (list pydict) :=
  match sites with
  | [] => mret all_results
  | site :: rest =>
      print ("Searching on " +:+ site +:+ "...");;
      let query := build_query keywords site filetypes in
      all_results' ←
        try_except
          (results ← _perform_search self query max_results_per_site;
           let results := tag site keywords <$> results in
           let all_results := all_results ++ results in
           sleep 1;;
           mret all_results)
          (fun e =>
             print ("Error searching on " +:+ site +:+ ": " +:+ exn_msg e);;
             mret all_results);
      search_sites self keywords rest max_results_per_site filetypes all_results'
  end.

(** [EbookSearcher.search_books]; [sites = None] selects the searcher's own
    list. *)
Definition search_books
    (self : EbookSearcher) (keywords : list string) (sites : option (list string))
    (max_results_per_site : Z) (filetypes : option (list string))
    : M (list pydict) :=
  let sites := default (ebook_sites self) sites in
  search_sites self keywords sites max_results_per_site filetypes [].

(** ** Regular expressions *)

(** The fragment of [re] that the site pattern uses.  [re] decides by
    backtracking; for these operators that accepts exactly the words of
    the language, which the derivative matcher below decides. *)
Inductive regex :=
| Void
| Eps
| Class (p : ascii -> bool)
| Cat (r1 r2 : regex)
| Alt (r1 r2 : regex)
| Star (r : regex).

Fixpoint nullable (r : regex) : bool :=
  match r with
  | Void => false
  | Eps => true
  | Class _ => false
  | Cat r1 r2 => nullable r1 && nullable r2
  | Alt r1 r2 => nullable r1 || nullable r2
  | Star _ => true
  end.

Fixpoint deriv (c : ascii) (r : regex) : regex :=
  match r with
  | Void => Void
  | Eps => Void
  | Class p => if p c then Eps else Void
  | Cat r1 r2 =>
      if nullable r1 then Alt (Cat (deriv c r1) r2) (deriv c r2)
      else Cat (deriv c r1) r2
  | Alt r1 r2 => Alt (deriv c r1) (deriv c r2)
  | Star r1 => Cat (deriv c r1) (Star r1)
  end.

(** The whole of [s] is a word of [r]. *)
Fixpoint accepts (r : regex) (s : string) : bool :=
  match s with
  | EmptyString => nullable r
  | String c s' => accepts (deriv c r) s'
  end.

Definition LF : ascii := "010"%char.
Definition CR : ascii := "013"%char.

(** [s] without its last character when that is a newline. *)
Fixpoint chop_newline (s : string) : option string :=
  match s with
  | EmptyString => None
  | String c EmptyString => if Ascii.eqb c LF then Some EmptyString else None
  | String c s' => String c <$> chop_newline s'
  end.

(** [re.compile('^' r '$').match(s)] is not [None]: [$] matches at the end
    of [s] and also just before a newline that ends [s]. *)
Definition re_match (r : regex) (s : string) : bool :=
  accepts r s
  || match chop_newline s with
     | Some s' => accepts r s'
     | None => false
     end.

(** [r+] *)
Definition plus (r : regex) : regex := Cat r (Star r).

(** [[a-zA-Z0-9.-]] *)
Definition host_char (c : ascii) : bool :=
  Str.is_lower c || Str.is_upper c || Str.is_digit c
  || Ascii.eqb c "." || Ascii.eqb c "-".

(** [[a-zA-Z0-9.-]+\.[a-zA-Z]{2,}], the pattern of [get_ebook_sites] between
    its anchors. *)
Definition url_pattern : regex :=
  Cat (plus (Class host_char))
    (Cat (Class (Ascii.eqb "."))
       (Cat (Class Str.is_letter) (plus (Class Str.is_letter)))).

(** ** The site list *)

(** Universal newlines: text mode turns CR LF and a lone CR into LF. *)
Fixpoint translate_newlines (s : string) : string :=
  match s with
  | EmptyString => EmptyString
  | String c s' =>
      if Ascii.eqb c CR then
        match s' with
        | String c' s'' =>
            if Ascii.eqb c' LF then String LF (translate_newlines s'')
            else String LF (translate_newlines s')
        | EmptyString => String LF EmptyString
        end
      else String c (translate_newlines s')
  end.

(** The lines of a text, each with its newline when it has one. *)
Fixpoint lines_keepends (s : string) : list string :=
  match s with
  | EmptyString => []
  | String c s' =>
      if Ascii.eqb c LF then String LF EmptyString :: lines_keepends s'
      else match lines_keepends s' with
           | [] => [String c EmptyString]
           | h :: t => String c h :: t
           end
  end.

(** The lines that iterating over a file opened in text mode yields. *)
Definition file_lines (text : string) : list string :=
  lines_keepends (translate_newlines text).

(** [os.path.exists(path)] *)
Definition os_path_exists (path : string) : M bool := fun w =>
  (Returns (bool_decide (is_Some (fs w !! path))), w).

(** [with open(path, 'r') as file: [... for line in file]]: the lines the
    iteration over the open file yields. *)
Definition read_lines (path : string) : M (list string) := fun w =>
  match fs w !! path with
  | Some text => (Returns (file_lines text), w)
  | None =>
      (Raises (Exn FileNotFoundError
                 ("[Errno 2] No such file or directory: '" +:+ path +:+ "'")), w)
  end.

(** [EbookSearcher.get_ebook_sites], reading [self.ebook_sites_file]. *)
Definition get_ebook_sites (ebook_sites_file : string) : M (list string) :=
  present ← os_path_exists ebook_sites_file;
  if negb present then
    raise (Exn FileNotFoundError
             ("Please create a file named '" +:+ ebook_sites_file
                +:+ "' with ebook sites."))
  else
    lines ← read_lines ebook_sites_file;
    let sites :=
      Str.strip <$>
        List.filter (fun line => re_match url_pattern (Str.strip line)) lines in
    match sites with
    | [] => raise (Exn ValueError "No ebook sites found in the file.")
    | _ =>
        print ("Found " +:+ Str.of_Z (len sites) +:+ " ebook sites.");;
        mret sites
    end.

(** [EbookSearcher.__init__] *)
Definition EbookSearcher_init (key engine_id : string) : M EbookSearcher :=
  let file := "ebook_sites.txt" in
  sites ← get_ebook_sites file;
  mret {| api_key := key;
          search_engine_id := engine_id;
          base_url := "https://www.googleapis.com/customsearch/v1";
          ebook_sites_file := file;
          ebook_sites := sites |}.

(** ** Saving the results *)

(** *** The writer of the [csv] module *)

Section CsvWriter.

(** Whether the writer puts a field in quotes for a carriage return in
    it: it does from CPython 3.13 on; before, it does so only for the
    characters of its line terminator, here LF. *)
Variable quote_cr : bool.

(** The characters for which the writer puts a field in quotes: the
    delimiter, the quote character and those that end a line. *)
Definition csv_special (c : ascii) : bool :=
  Ascii.eqb c "," || Ascii.eqb c Str.dquote || Ascii.eqb c LF
  || (quote_cr && Ascii.eqb c CR).

Definition csv_needs_quotes (field : string) : bool :=
  existsb csv_special (Str.chars field).

(** Each quote character of a quoted field is doubled. *)
Fixpoint csv_escape (field : string) : string :=
  match field with
  | EmptyString => EmptyString
  | String c rest =>
      if Ascii.eqb c Str.dquote
      then String Str.dquote (String Str.dquote (csv_escape rest))
      else String c (csv_escape rest)
  end.

(** A field as [QUOTE_MINIMAL] writes it. *)
Definition csv_field (field : string) : string :=
  if csv_needs_quotes field
  then String Str.dquote (csv_escape field +:+ String Str.dquote EmptyString)
  else field.

(** [writer.writerow(fields)]: the fields separated by commas, and the
    line terminator; a row that is one empty field is written as two
    quotes, so that it is not an empty line. *)
Definition csv_row (fields : list string) : string :=
  match fields with
  | [EmptyString] => String Str.dquote (String Str.dquote (String LF EmptyString))
  | _ => Str.join "," (csv_field <$> fields) +:+ String LF EmptyString
  end.

(** [writer.writerows(rows)] *)
Definition csv_rows (rows : list (list string)) : string :=
  foldr (fun row text => csv_row row +:+ text) EmptyString rows.

End CsvWriter.

(** *** The table and its file *)

(** What [to_csv] takes from the table [pandas.DataFrame(results)]: the
    column labels and, row by row, the text of each cell. *)
Record DataFrame := {
  columns : list string;
  cells : list (list string)
}.

(** The distinct elements of [l] outside [seen], in order of first
    occurrence. *)
Fixpoint first_occurrences (seen l : list string) : list string :=
  match l with
  | [] => []
  | x :: l' =>
      if bool_decide (x ∈ seen) then first_occurrences seen l'
      else x :: first_occurrences (x :: seen) l'
  end.


Section Saving.

(** [cell_text results i label] is the text that [to_csv] writes for the
    cell of row [i] under the column [label] of
    [pandas.DataFrame(results)].  It is the library's and depends on the
    whole column: the values of a column decide its type, so that an int
    is written as a float when another cell of the column is missing, and
    a missing cell or [None] is written as the empty text. *)
Variable cell_text : list pydict -> nat -> string -> string.

Variable quote_cr : bool.

(** [pandas.DataFrame(results)] for a list of [dict]: the columns are the
    keys in order of first occurrence, and each result gives one row. *)
Definition DataFrame_of (results : list pydict) : DataFrame :=
  let cols := first_occurrences [] (concat (dict_keys <$> results)) in
  {| columns := cols;
     cells := imap (fun i _ => cell_text results i <$> cols) results |}.

(** The text of [df.to_csv(filename, index=False, encoding='utf-8')]: the
    row of the column labels, then the rows of the table, each written by
    the writer of the [csv] module with the line terminator of the
    system, LF on the POSIX systems that this model covers. *)
Definition to_csv (df : DataFrame) : string :=
  csv_rows quote_cr (columns df :: cells df).


End Saving.

(** ** Configuration *)

(** [os.getenv(name)] *)
Definition os_getenv (name : string) : M (option string) := fun w =>
  (Returns (environ w !! name), w).

(** [load_dotenv()]: the assignments of the [.env] file enter the
    environment, except for the names it already defines. *)
Definition load_dotenv : M unit := fun w =>
  (Returns tt, set_environ (environ w ∪ dotenv w) w).

(** [load_and_clean_env_list] *)
Definition load_and_clean_env_list (env_var : string) : M (list string) :=
  value ← os_getenv env_var;
  let values := Str.split "," (default EmptyString value) in
  let values :=
    Str.strip <$> List.filter (fun value => Str.truthy (Str.strip value)) values in
  mret values.

Section Config.

(** [int(s)] for a [str]: the number, or the [ValueError] of a text that
    is not a decimal literal. *)
Variable py_int : string -> outcome Z.

(** [load_environment_variables] *)
Definition load_environment_variables
    : M (string * string * list string * list string * Z) :=
  '(api_key, search_engine_id, keywords, filetypes, max_results_per_site) ←
    try_except
      (load_dotenv;;
       api_key ← os_getenv "API_KEY";
       search_engine_id ← os_getenv "SEARCH_ENGINE_ID";
       keywords ← load_and_clean_env_list "KEYWORDS";
       filetypes ← load_and_clean_env_list "FILETYPES";
       cap ← os_getenv "MAX_RESULTS_PER_SITE";
       max_results_per_site ←
         match cap with
         | Some text => lift (py_int text)
         | None => mret 10
         end;
       mret (api_key, search_engine_id, keywords, filetypes,
             max_results_per_site))
      (fun e =>
         match exn_cls e with
         | ImportError =>
             raise (Exn ImportError
                      "Please install python-dotenv to load environment variables.")
         | _ =>
             raise (Exn RuntimeError
                      ("Error loading environment variables: " +:+ exn_msg e))
         end);
  (* [x is None] for each of [api_key], [search_engine_id], [keywords];
     [keywords] is the list [load_and_clean_env_list] returned. *)
  match api_key, search_engine_id, Some keywords with
  | Some api_key, Some search_engine_id, Some keywords =>
      mret (api_key, search_engine_id, keywords, filetypes,
            max_results_per_site)
  | _, _, _ =>
      raise (Exn ValueError
               "Please set GOOGLE_API_KEY, GOOGLE_CSE_ID, and SEARCH_KEYWORDS in your .env file.")
  end.

End Config.

(** ** Showing the results *)

(** The first [n] characters of a text. *)
Fixpoint take_chars (n : nat) (s : string) : string :=
  match n, s with
  | S n', String c s' => String c (take_chars n' s')
  | _, _ => EmptyString
  end.

(** [c * n] for a one-character text [c]. *)
Fixpoint repeat_char (c : ascii) (n : nat) : string :=
  match n with
  | O => EmptyString
  | S n' => String c (repeat_char c n')
  end.

(** [value[:n]] for [n >= 0]: texts and lists can be sliced; a [dict]
    rejects the slice as a key (with this error up to CPython 3.11) and
    the other values cannot be subscripted. *)
Definition py_slice_to (value : pyval) (n : nat) : outcome pyval :=
  match value with
  | PStr s => Returns (PStr (take_chars n s))
  | PList l => Returns (PList (take n l))
  | PDict _ => Raises (type_error "unhashable type: 'slice'")
  | v => Raises (type_error ("'" +:+ type_name v +:+ "' object is not subscriptable"))
  end.

Section Display.

(** [repr(v)] for the values whose text the model does not compute:
    floats, lists and dicts. *)
Variable py_repr : pyval -> string.

(** The text an f-string puts for [{value}]. *)
Definition format_value (value : pyval) : string :=
  match value with
  | PStr s => s
  | PNone => "None"
  | PBool true => "True"
  | PBool false => "False"
  | PInt n => Str.of_Z n
  | v => py_repr v
  end.

(** The body of the [for] loop of [display_results], for the result
    numbered [i]. *)
Definition display_result (i : Z) (result : pydict) : M unit :=
  title ← lift (py_getitem (PDict result) "title");
  print (Str.of_Z i +:+ ". " +:+ format_value title);;
  print ("   Site: "
           +:+ format_value (default (PStr "N/A") (dict_get "source_site" result)));;
  link ← lift (py_getitem (PDict result) "link");
  print ("   URL: " +:+ format_value link);;
  snippet ← lift (py_getitem (PDict result) "snippet");
  short ← lift (py_slice_to snippet 100);
  print ("   Description: " +:+ format_value short +:+ "...");;
  print (repeat_char "-" 80).

(** The [for] loop over [enumerate(shown, i)]. *)
Fixpoint display_each (i : Z) (shown : list pydict) : M unit :=
  match shown with
  | [] => mret tt
  | result :: rest => display_result i result;; display_each (i + 1) rest
  end.

(** [EbookSearcher.display_results]; [limit = None] selects the default. *)
Definition display_results (results : list pydict) (limit : option Z) : M unit :=
  let limit := default 20 limit in
  match results with
  | [] => print "No results found."
  | _ =>
      print (String LF ("=== " +:+ Str.of_Z (len results) +:+ " results found ===")
               +:+ String LF EmptyString);;
      display_each 1 (slice_to results limit)
  end.

End Display.

(** * Vocabulary of the properties *)

(** An item of an answer is a JSON object. *)
Definition item_ok (item : pyval) : Prop :=
  match item with
  | PDict _ => True
  | _ => False
  end.

(** A decoded body is a JSON object whose [items] member, when it has
    one, is an array of objects. *)
Definition body_ok (data : pyval) : Prop :=
  match data with
  | PDict d =>
      match dict_get "items" d with
      | None => True
      | Some (PList items) => Forall item_ok items
      | Some _ => False
      end
  | _ => False
  end.

(** [requests.get] returned a response, and a response with status 200
    carries a well-formed body. *)
Definition reply_ok (o : http_outcome) : Prop :=
  match o with
  | HttpRaise _ => False
  | HttpReply resp =>
      status_code resp = 200 ->
      exists data, json_body resp = Returns data /\ body_ok data
  end.

Definition searching_line (site : string) : string :=
  "Searching on " +:+ site +:+ "...".

Definition error_line (site : string) (e : exn) : string :=
  "Error searching on " +:+ site +:+ ": " +:+ exn_msg e.

(** The outcome of the search of the [n]-th site of [sites] in the run of
    [search_books] from [w]: the search of [site] from the world in which
    the sites before it have left the run, after the line that announces
    the site. *)
Definition site_search
    (self : EbookSearcher) (keywords : list string) (sites : list string)
    (max_results : Z) (filetypes : option (list string)) (w : world)
    (n : nat) (site : string) : outcome (list pydict) :=
  fst (_perform_search self (build_query keywords site filetypes) max_results
         (snd (print (searching_line site)
                 (snd (search_sites self keywords (take n sites) max_results
                         filetypes [] w))))).

(** What a search produced: the results it returned, none when it
    raised. *)
Definition found_by (o : outcome (list pydict)) : list pydict :=
  match o with
  | Returns found => found
  | Raises _ => []
  end.

(** The state of the loop of [_perform_search] after [n] full turns, if the
    loop takes that many. *)
Fixpoint after_turns
    (n : nat) (self : EbookSearcher) (query : string) (max_results : Z)
    (results : list pydict) (start_index : Z) (w : world)
    : option (list pydict * Z * world) :=
  match n with
  | O => Some (results, start_index, w)
  | S n' =>
      if (len results <? max_results) && (start_index <=? 91) then
        match search_page self query max_results results start_index w with
        | (Returns (Next results'), w') =>
            after_turns n' self query max_results results' (start_index + 10) w'
        | _ => None
        end
      else None
  end.

(** During the run from [w] to [w'] some request got an answer with a
    status other than 200. *)
Definition got_non_200 (w w' : world) : Prop :=
  exists history resp,
    history `prefix_of` sent w'
    /\ (length (sent w) < length history)%nat
    /\ api w history = HttpReply resp
    /\ status_code resp <> 200.

(** The words of a regular expression. *)
Inductive lang : regex -> string -> Prop :=
| lang_eps : lang Eps EmptyString
| lang_class p c : p c = true -> lang (Class p) (String c EmptyString)
| lang_cat r1 r2 s1 s2 : lang r1 s1 -> lang r2 s2 -> lang (Cat r1 r2) (s1 +:+ s2)
| lang_alt_l r1 r2 s : lang r1 s -> lang (Alt r1 r2) s
| lang_alt_r r1 r2 s : lang r2 s -> lang (Alt r1 r2) s
| lang_star_nil r : lang (Star r) EmptyString
| lang_star_cons r s1 s2 : lang r s1 -> lang (Star r) s2 -> lang (Star r) (s1 +:+ s2).

(** A character the name part of a host may hold: a letter, a digit, a
    dot or a hyphen. *)
Definition name_char (c : ascii) : Prop :=
  Str.is_letter c = true \/ Str.is_digit c = true \/ c = "."%char \/ c = "-"%char.

Definition letter (c : ascii) : Prop := Str.is_letter c = true.

(** A text that looks like a host name: one or more name characters, a
    dot, and a suffix of two or more letters. *)
Definition hostname_like (s : string) : Prop :=
  exists name suffix,
    s = name +:+ "." +:+ suffix
    /\ name <> EmptyString
    /\ Forall name_char (Str.chars name)
    /\ (2 <= String.length suffix)%nat
    /\ Forall letter (Str.chars suffix).

(** [sites] holds, in order, [norm line] for exactly the lines of [lines]
    with [P (norm line)]; nothing is merged or dropped otherwise. *)
Inductive selects (norm : string -> string) (P : string -> Prop)
  : list string -> list string -> Prop :=
| selects_nil : selects norm P [] []
| selects_keep line lines sites :
    P (norm line) -> selects norm P lines sites ->
    selects norm P (line :: lines) (norm line :: sites)
| selects_skip line lines sites :
    ~ P (norm line) -> selects norm P lines sites ->
    selects norm P (line :: lines) sites.

(** A line as written: without the newline that ends it. *)
Definition line_text (line : string) : string :=
  default line (chop_newline line).

(** A text with no white space at its start. *)
Definition no_lead (s : string) : Prop :=
  match s with
  | EmptyString => True
  | String c _ => Str.isspace c = false
  end.

(** A value as [load_and_clean_env_list] returns them: not empty, no
    white space around it, no comma in it. *)
Definition clean_value (v : string) : Prop :=
  v <> EmptyString /\ Str.strip v = v /\ ","%char ∉ Str.chars v.

Definition no_space (s : string) : Prop :=
  Forall (fun c => Str.isspace c = false) (Str.chars s).

(** The text of a file that lists [sites], one per line. *)
Definition site_file (sites : list string) : string :=
  Str.join (String LF EmptyString) sites.

(** The result built from the JSON object [d]: its five fields, each
    the empty text when [d] lacks it. *)
Definition result_of (d : pydict) : pydict :=
  [("title", default (PStr EmptyString) (dict_get "title" d));
   ("link", default (PStr EmptyString) (dict_get "link" d));
   ("snippet", default (PStr EmptyString) (dict_get "snippet" d));
   ("displayLink", default (PStr EmptyString) (dict_get "displayLink" d));
   ("formattedUrl", default (PStr EmptyString) (dict_get "formattedUrl" d))].

Definition result_keys : list string :=
  ["title"; "link"; "snippet"; "displayLink"; "formattedUrl"].

(** The API never answers with more items than the request asks for. *)
Definition obeys_num (answers : list request -> http_outcome) : Prop :=
  forall history r resp data items elements,
    1 <= req_num r ->
    answers (history ++ [r]) = HttpReply resp ->
    json_body resp = Returns data ->
    py_getitem data "items" = Returns items ->
    py_iter items = Returns elements ->
    len elements <= req_num r.


(** A result [display_results] can show: it has a title, a link and a
    snippet that is a text. *)
Definition showable (result : pydict) : Prop :=
  is_Some (dict_get "title" result)
  /\ is_Some (dict_get "link" result)
  /\ exists s, dict_get "snippet" result = Some (PStr s).

(** A snippet the display can slice and print: absent, or a text. *)
Definition text_or_absent (v : option pyval) : Prop :=
  match v with
  | None => True
  | Some (PStr _) => True
  | Some _ => False
  end.

(** In every answer of the API, the items that are objects have a text
    as snippet or none. *)
Definition snippets_are_text (answers : list request -> http_outcome) : Prop :=
  forall history resp data items elements d,
    answers history = HttpReply resp ->
    json_body resp = Returns data ->
    py_getitem data "items" = Returns items ->
    py_iter items = Returns elements ->
    PDict d ∈ elements ->
    text_or_absent (dict_get "snippet" d).

(** A value that cannot be subscripted: a number, a boolean or [None]. *)
Definition unsliceable (v : pyval) : Prop :=
  match v with
  | PNone | PBool _ | PInt _ | PFloat _ => True
  | _ => False
  end.

(** *** The records of a CSV text *)

(** Where a reader of CSV text stands: at the start of a field, inside a
    field without quotes, inside a quoted field, or just after a quote
    inside a quoted field. *)
Inductive csv_mode :=
| AtStart
| InPlain
| InQuoted
| AfterQuote.

(** A line of CSV text ends with LF, CR or CR LF. *)
Definition line_end (c : ascii) : bool := Ascii.eqb c LF || Ascii.eqb c CR.

(** The text after a line end whose first character is [c]. *)
Definition after_line_end (c : ascii) (rest : string) : string :=
  match rest with
  | String c' rest' => if Ascii.eqb c CR && Ascii.eqb c' LF then rest' else rest
  | EmptyString => rest
  end.

(** The records of a CSV text, as [csv.reader] yields them for a file
    opened with [newline=''], read from [mode] with [field] the text of
    the field so far and [fields] the fields of the record so far.
    Outside quotes a comma ends a field and a line end ends the record;
    inside quotes every character belongs to the field, a doubled quote
    standing for one.  An empty line is a record without fields. *)
Fixpoint csv_read_from
    (mode : csv_mode) (field : string) (fields : list string) (text : string)
    : list (list string) :=
  match text with
  | EmptyString =>
      match mode, fields with
      | AtStart, [] => []
      | _, _ => [fields ++ [field]]
      end
  | String c rest =>
      let add := field +:+ String c EmptyString in
      let end_field := fields ++ [field] in
      let next_line := after_line_end c rest in
      match mode with
      | AtStart =>
          if Ascii.eqb c Str.dquote then csv_read_from InQuoted field fields rest
          else if Ascii.eqb c "," then csv_read_from AtStart EmptyString end_field rest
          else if line_end c then
            match fields with
            | [] => [] :: csv_read_from AtStart EmptyString [] next_line
            | _ => end_field :: csv_read_from AtStart EmptyString [] next_line
            end
          else csv_read_from InPlain add fields rest
      | InPlain =>
          if Ascii.eqb c "," then csv_read_from AtStart EmptyString end_field rest
          else if line_end c then
            end_field :: csv_read_from AtStart EmptyString [] next_line
          else csv_read_from InPlain add fields rest
      | InQuoted =>
          if Ascii.eqb c Str.dquote then csv_read_from AfterQuote field fields rest
          else csv_read_from InQuoted add fields rest
      | AfterQuote =>
          if Ascii.eqb c Str.dquote then csv_read_from InQuoted add fields rest
          else if Ascii.eqb c "," then csv_read_from AtStart EmptyString end_field rest
          else if line_end c then
            end_field :: csv_read_from AtStart EmptyString [] next_line
          else csv_read_from InPlain add fields rest
      end
  end.

Definition csv_read (text : string) : list (list string) :=
  csv_read_from AtStart EmptyString [] text.




(** * Sample inputs *)

Module Sample.

Definition searcher : EbookSearcher :=
  {| api_key := "key";
     search_engine_id := "engine";
     base_url := "https://www.googleapis.com/customsearch/v1";
     ebook_sites_file := "ebook_sites.txt";
     ebook_sites := ["a.com"; "b.org"] |}.

Definition item (title : string) : pyval :=
  PDict [("title", PStr title); ("link", PStr ("https://a.com/" +:+ title))].

Definition page (items : list pyval) : http_outcome :=
  HttpReply (Response 200 (Returns (PDict [("items", PList items)]))).

Definition quiet (answers : list request -> http_outcome) : world :=
  {| api := answers; sent := []; fs := ∅; environ := ∅; dotenv := ∅;
     console := []; slept := 0 |}.

(** An API that answers every request with the same three items. *)
Definition generous : world :=
  quiet (fun _ => page [item "one"; item "two"; item "three"]).

(** An API that answers the first request with one item and every later
    one with status 500. *)
Definition failing_second : world :=
  quiet (fun history =>
           match history with
           | [_] => page [item "one"]
           | _ => HttpReply (Response 500 (Raises (Exn ValueError "no JSON")))
           end).

(** An API that cannot be reached for the searches on b.org and answers
    the others with one item. *)
Definition flaky : world :=
  quiet (fun history =>
           match last history with
           | Some r =>
               if Str.contains "b.org" (req_q r)
               then HttpRaise (Exn (OtherError "ConnectionError") "connection refused")
               else page [item "one"]
           | None => page []
           end).

(** A configuration with the two credentials and no keyword list. *)
Definition no_keywords : world :=
  {| api := fun _ => page []; sent := []; fs := ∅;
     environ := <["API_KEY" := "key"]> ∅;
     dotenv := <["SEARCH_ENGINE_ID" := "engine"]> ∅;
     console := []; slept := 0 |}.

(** A site file whose only line has a space before the host name. *)
Definition padded_site_file : world :=
  {| api := fun _ => page []; sent := [];
     fs := <["ebook_sites.txt" := " example.com" +:+ String LF EmptyString]> ∅;
     environ := ∅; dotenv := ∅; console := []; slept := 0 |}.

(** The cells of a table of texts and of lists of words, as [to_csv]
    writes them: a text as it is, a list of words as [repr] shows it, and
    nothing for a missing cell. *)
Definition cell_text (results : list pydict) (i : nat) (label : string) : string :=
  match results !! i ≫= dict_get label with
  | Some (PStr s) => s
  | Some (PList words) =>
      "[" +:+ Str.join ", "
                ((fun word => match word with
                              | PStr s => "'" +:+ s +:+ "'"
                              | _ => EmptyString
                              end) <$> words)
          +:+ "]"
  | _ => EmptyString
  end.

End Sample.

Module Cases.
Definition quiet_env (env : gmap string string) : world :=
  {| api := fun _ => Sample.page []; sent := []; fs := ∅; environ := env; dotenv := ∅;
     console := []; slept := 0 |}.

(** A configuration whose [.env] file disagrees with the environment on
    the API key. *)
Definition two_keys : world :=
  {| api := fun _ => Sample.page []; sent := []; fs := ∅;
     environ := <["API_KEY" := "from-environment"]> (<["SEARCH_ENGINE_ID" := "engine"]> ∅);
     dotenv := <["API_KEY" := "from-file"]> (<["KEYWORDS" := "a, b"]> ∅);
     console := []; slept := 0 |}.

(** An [int] that accepts no text. *)
Definition no_int (text : string) : outcome Z :=
  Raises (Exn ValueError ("invalid literal for int() with base 10: '" +:+ text +:+ "'")).
Definition shelf : list pyval :=
  Sample.item <$> ["a"; "b"; "c"; "d"; "e"; "f"; "g"; "h"; "i"; "j"; "k"; "l"].

(** An API with twelve items for every query that answers with as many
    of them as the request asks for. *)
Definition obedient : world :=
  Sample.quiet (fun history =>
                  match last history with
                  | Some r => Sample.page (take (Z.to_nat (req_num r)) shelf)
                  | None => Sample.page []
                  end).

(** An API that answers the first request with one item and every later
    one with a body without items. *)
Definition runs_dry : world :=
  Sample.quiet (fun history =>
                  match history with
                  | [_] => Sample.page [Sample.item "one"]
                  | _ => HttpReply (Response 200 (Returns (PDict [("kind", PStr "search")])))
                  end).
End Cases.

(** * Properties *)

(** ** The query builder *)

(** C1. For the keywords Nietzsche and Gay, the site example.com and the
    file types pdf and epub, the query built before percent-encoding is the
    site prefix, the two quoted keywords separated by spaces, and the
    filetype alternation; [build_query] returns its percent-encoding. *)
Theorem build_query_example :
  let q := Str.dquote in
  let expected :=
    "site:example.com " +:+ String q "Nietzsche" +:+ String q " "
      +:+ String q "Gay" +:+ String q " filetype:pdf OR filetype:epub" in
  build_query_text ["Nietzsche"; "Gay"] "example.com" (Some ["pdf"; "epub"])
    = expected
  /\ build_query ["Nietzsche"; "Gay"] "example.com" (Some ["pdf"; "epub"])
    = "site%3Aexample.com%20%22Nietzsche%22%20%22Gay%22%20filetype%3Apdf%20OR%20filetype%3Aepub".
Proof. split; reflexivity. Qed.

(** ** The monad *)

Lemma bind_run {A B} (c : M A) (k : A -> M B) (w : world) :
  (c ≫= k) w =
  match c w with
  | (Returns a, w') => k a w'
  | (Raises e, w') => (Raises e, w')
  end.
Proof. reflexivity. Qed.

Lemma ret_run {A} (a : A) (w : world) : (mret a : M A) w = (Returns a, w).
Proof. reflexivity. Qed.

Lemma lift_run {A} (o : outcome A) (w : world) : lift o w = (o, w).
Proof. reflexivity. Qed.

(** Building a result touches nothing outside. *)
Lemma make_result_world (item : pyval) (w : world) :
  snd (make_result item w) = w.
Proof.
  unfold make_result. rewrite !bind_run, !lift_run.
  repeat match goal with
         | |- context [py_get ?i ?k ?d] => destruct (py_get i k d); simpl; try reflexivity
         end.
Qed.

Lemma for_each_make_result_world (items : list pyval) (w : world) :
  snd (for_each make_result items w) = w.
Proof.
  induction items as [|item items IH]; simpl; [reflexivity|].
  rewrite bind_run.
  pose proof (make_result_world item w) as Hw.
  destruct (make_result item w) as [[r|e] w1]; simpl in Hw; subst w1; [|reflexivity].
  rewrite bind_run.
  destruct (for_each make_result items w) as [[rs|e] w2]; simpl in IH; subst w2;
    reflexivity.
Qed.

(** ** Pagination *)

(** A turn of the loop sends exactly its one request. *)
Lemma search_page_sent self query max_results results start_index w :
  sent (snd (search_page self query max_results results start_index w))
  = sent w ++ [page_request self query max_results results start_index].
Proof.
  unfold search_page.
  rewrite bind_run. unfold requests_get.
  destruct (api w _) as [e|resp]; [reflexivity|].
  destruct (negb _); [reflexivity|].
  rewrite bind_run, lift_run.
  destruct (json_body resp) as [data|e]; [|reflexivity].
  rewrite bind_run, lift_run.
  destruct (py_contains "items" data) as [[|]|e]; simpl; try reflexivity.
  rewrite bind_run, lift_run.
  destruct (py_getitem data "items") as [items|e]; [|reflexivity].
  rewrite bind_run, lift_run.
  destruct (py_iter items) as [elements|e]; [|reflexivity].
  rewrite bind_run.
  pose proof (for_each_make_result_world elements
                (set_sent (sent w ++ [page_request self query max_results results start_index]) w)) as Hw.
  destruct (for_each make_result elements _) as [[new|e] w1]; simpl in Hw; subst w1;
    reflexivity.
Qed.

Lemma turns_from_pos (start_index : Z) :
  start_index <= 91 -> (1 <= turns_from start_index)%nat.
Proof.
  unfold turns_from. intros H. apply Nat2Z.inj_le.
  rewrite Z2Nat.id; Z.div_mod_to_equations; lia.
Qed.

Lemma turns_from_next (start_index : Z) :
  start_index <= 91 -> turns_from start_index = S (turns_from (start_index + 10)).
Proof.
  unfold turns_from. intros H. apply Nat2Z.inj. rewrite Nat2Z.inj_succ.
  rewrite !Z2Nat.id; Z.div_mod_to_equations; lia.
Qed.

(** With [turns_from start_index] units of fuel or more the loop never
    runs out: its result does not depend on the fuel. *)
Lemma search_loop_enough_fuel fuel1 fuel2 self query max_results results start_index w :
  (turns_from start_index <= fuel1)%nat ->
  (turns_from start_index <= fuel2)%nat ->
  search_loop fuel1 self query max_results results start_index w
  = search_loop fuel2 self query max_results results start_index w.
Proof.
  revert fuel2 results start_index w.
  induction fuel1 as [|fuel1 IH]; intros [|fuel2] results start_index w H1 H2;
    simpl; try reflexivity;
    destruct (len results <? max_results) eqn:Hlen; simpl; try reflexivity;
    destruct (start_index <=? 91) eqn:Hstart; simpl; try reflexivity;
    apply Z.leb_le in Hstart; pose proof (turns_from_pos _ Hstart);
    try lia.
  rewrite !bind_run.
  destruct (search_page self query max_results results start_index w)
    as [[[|results']|e] w']; try reflexivity.
  rewrite (turns_from_next _ Hstart) in H1, H2.
  apply IH; lia.
Qed.

(** The [while] loop as the program text has it: test, body, loop again. *)
Lemma perform_search_loop_unfold self query max_results results start_index w :
  let loop results start_index :=
    search_loop (turns_from start_index) self query max_results results start_index in
  loop results start_index w =
  if (len results <? max_results) && (start_index <=? 91) then
    match search_page self query max_results results start_index w with
    | (Returns Break, w') => (Returns (slice_to results max_results), w')
    | (Returns (Next results'), w') => loop results' (start_index + 10) w'
    | (Raises e, w') => (Raises e, w')
    end
  else (Returns (slice_to results max_results), w).
Proof.
  simpl.
  destruct (len results <? max_results) eqn:Hlen; simpl.
  2: { destruct (turns_from start_index); simpl; rewrite Hlen; reflexivity. }
  destruct (start_index <=? 91) eqn:Hstart; simpl.
  2: { destruct (turns_from start_index); simpl; rewrite Hlen, Hstart; reflexivity. }
  apply Z.leb_le in Hstart.
  rewrite (turns_from_next _ Hstart). simpl.
  apply Z.leb_le in Hstart. rewrite Hlen, Hstart. simpl.
  rewrite bind_run.
  destruct (search_page self query max_results results start_index w)
    as [[[|results']|e] w']; reflexivity.
Qed.

(** *** Well-formed answers of the API *)

Lemma dict_get_keys (key : string) (d : pydict) :
  key ∈ dict_keys d <-> is_Some (dict_get key d).
Proof.
  unfold dict_keys. induction d as [|[k v] d IH]; simpl.
  - split; [intros H; inversion H | intros [x H]; discriminate].
  - destruct (String.eqb k key) eqn:E.
    + apply String.eqb_eq in E. subst. split; [eauto | intros _; left].
    + apply String.eqb_neq in E. rewrite <- IH. split.
      * intros H. inversion H; subst; [congruence | assumption].
      * intros H. right. assumption.
Qed.

Lemma for_each_make_result_ok (items : list pyval) (w : world) :
  Forall item_ok items ->
  exists new, for_each make_result items w = (Returns new, w).
Proof.
  induction 1 as [|item items Hitem _ [new IH]]; simpl; [eauto|].
  destruct item; try contradiction.
  rewrite bind_run. unfold make_result at 1. simpl.
  rewrite bind_run, IH. eauto.
Qed.

Lemma search_page_api self query max_results results start_index w :
  api (snd (search_page self query max_results results start_index w)) = api w.
Proof.
  unfold search_page. rewrite bind_run. unfold requests_get.
  destruct (api w _) as [e|resp]; [reflexivity|].
  destruct (negb _); [reflexivity|].
  rewrite bind_run, lift_run.
  destruct (json_body resp) as [data|e]; [|reflexivity].
  rewrite bind_run, lift_run.
  destruct (py_contains "items" data) as [[|]|e]; simpl; try reflexivity.
  rewrite bind_run, lift_run.
  destruct (py_getitem data "items") as [items|e]; [|reflexivity].
  rewrite bind_run, lift_run.
  destruct (py_iter items) as [elements|e]; [|reflexivity].
  rewrite bind_run.
  match goal with
  | |- context [for_each make_result elements ?w0] =>
      pose proof (for_each_make_result_world elements w0) as Hw;
      destruct (for_each make_result elements w0) as [[new|e] w1]
  end; simpl in Hw; subst w1; reflexivity.
Qed.

(** A turn whose request gets a well-formed answer does not raise. *)
Lemma search_page_ok self query max_results results start_index w :
  reply_ok (api w (sent w ++ [page_request self query max_results results start_index])) ->
  exists t w', search_page self query max_results results start_index w = (Returns t, w').
Proof.
  intros Hok. unfold search_page.
  rewrite bind_run. unfold requests_get.
  destruct (api w _) as [e|resp]; [contradiction|]. simpl in Hok.
  destruct (status_code resp =? 200) eqn:Hst; simpl; [|eauto].
  apply Z.eqb_eq in Hst. destruct (Hok Hst) as (data & Hbody & Hdata).
  rewrite bind_run, lift_run, Hbody.
  destruct data as [| | | | |?|d]; try contradiction.
  rewrite bind_run, lift_run. simpl py_contains. cbv iota beta.
  case_bool_decide as Hin; simpl; [|eauto].
  apply dict_get_keys in Hin. destruct Hin as [items Hitems].
  simpl in Hdata. rewrite Hitems in Hdata.
  rewrite bind_run, lift_run. simpl. rewrite Hitems.
  destruct items as [| | | | |elements|?]; try contradiction.
  rewrite bind_run, lift_run. simpl.
  rewrite bind_run.
  match goal with
  | |- context [for_each make_result elements ?w0] =>
      destruct (for_each_make_result_ok elements w0 Hdata) as [new ->]
  end.
  eauto.
Qed.

Lemma slice_to_length {A} (l : list A) (n : Z) : 0 <= n -> len (slice_to l n) <= n.
Proof.
  intros Hn. unfold slice_to, len.
  destruct (0 <=? n) eqn:E; [|apply Z.leb_gt in E; lia].
  rewrite length_take. lia.
Qed.

(** Whatever the loop returns is a slice [[:max_results]]. *)
Lemma search_loop_returns_slice fuel self query max_results results start_index w l w' :
  search_loop fuel self query max_results results start_index w = (Returns l, w') ->
  exists results', l = slice_to results' max_results.
Proof.
  revert results start_index w.
  induction fuel as [|fuel IH]; intros results start_index w; simpl;
    destruct ((len results <? max_results) && (start_index <=? 91));
    try (intros [= <- <-]; eauto; fail).
  rewrite bind_run.
  destruct (search_page self query max_results results start_index w)
    as [[[|results']|e] w1]; try (intros [= <- <-]; eauto; fail).
  apply IH.
Qed.

(** The loop returns when every answer of the API is well-formed. *)
Lemma search_loop_total fuel self query max_results results start_index w :
  (forall history, reply_ok (api w history)) ->
  exists l w', search_loop fuel self query max_results results start_index w = (Returns l, w').
Proof.
  revert results start_index w.
  induction fuel as [|fuel IH]; intros results start_index w Hapi; simpl;
    destruct ((len results <? max_results) && (start_index <=? 91)); eauto.
  rewrite bind_run.
  pose proof (search_page_api self query max_results results start_index w) as Hsame.
  destruct (search_page_ok self query max_results results start_index w (Hapi _))
    as (t & w1 & Hpage).
  rewrite Hpage in *. simpl in Hsame.
  destruct t as [|results']; [eauto|].
  apply IH. intros history. rewrite Hsame. apply Hapi.
Qed.

(** The requests of the loop: the i-th goes for offset
    [start_index + 10 i], which is at most 91, and asks for 1 to 10 items. *)
Lemma search_loop_requests fuel self query max_results results start_index w :
  exists new,
    sent (snd (search_loop fuel self query max_results results start_index w))
    = sent w ++ new
    /\ forall (i : nat) (r : request),
        new !! i = Some r ->
        req_start r = start_index + 10 * Z.of_nat i
        /\ req_start r <= 91
        /\ 1 <= req_num r <= 10.
Proof.
  revert results start_index w.
  induction fuel as [|fuel IH]; intros results start_index w; simpl.
  - exists []. destruct (_ && _); simpl; rewrite app_nil_r; split; try done.
  - destruct (len results <? max_results) eqn:Hlen; simpl.
    2: { exists []. simpl. rewrite app_nil_r. split; done. }
    destruct (start_index <=? 91) eqn:Hstart; simpl.
    2: { exists []. simpl. rewrite app_nil_r. split; done. }
    apply Z.ltb_lt in Hlen. apply Z.leb_le in Hstart.
    rewrite bind_run.
    pose proof (search_page_sent self query max_results results start_index w) as Hsent.
    set (first := page_request self query max_results results start_index) in *.
    assert (Hfirst : req_start first = start_index + 10 * Z.of_nat 0
                     /\ req_start first <= 91 /\ 1 <= req_num first <= 10)
      by (subst first; simpl; lia).
    assert (Hone : forall (i : nat) (r : request), [first] !! i = Some r ->
                   req_start r = start_index + 10 * Z.of_nat i
                   /\ req_start r <= 91 /\ 1 <= req_num r <= 10).
    { intros [|i] r; simpl; [intros [= <-]; exact Hfirst | done]. }
    destruct (search_page self query max_results results start_index w)
      as [[[|results']|e] w1]; simpl in Hsent; try (exists [first]; split; assumption).
    destruct (IH results' (start_index + 10) w1) as (new & Hnew & Hall).
    exists (first :: new). split.
    + rewrite Hnew, Hsent, <- app_assoc. reflexivity.
    + intros [|i] r; simpl; [intros [= <-]; exact Hfirst|].
      intros Hr. destruct (Hall i r Hr) as (H1 & H2 & H3). lia.
Qed.

(** C10. With [max_results] zero or negative, [_perform_search] returns
    the empty list and leaves the world as it was: no request is sent. *)
Theorem perform_search_nonpositive_max self query max_results w :
  max_results <= 0 ->
  _perform_search self query max_results w = (Returns [], w).
Proof.
  intros Hmax. unfold _perform_search.
  destruct (turns_from 1); simpl;
    (replace (len [] <? max_results) with false
      by (symmetry; apply Z.ltb_ge; unfold len; simpl; lia));
    simpl; unfold slice_to; destruct (0 <=? max_results); simpl;
    rewrite ?take_nil; reflexivity.
Qed.

Lemma perform_search_nonpositive_max_witness :
  -2 <= 0
  /\ _perform_search Sample.searcher "q" (-2) Sample.generous
     = (Returns [], Sample.generous).
Proof.
  split; [lia|].
  apply (perform_search_nonpositive_max Sample.searcher "q" (-2) Sample.generous).
  lia.
Defined.

(** C2. The requests one call of [_perform_search] sends go, in order, for
    the start offsets 1, 11, 21, ...; every offset is at most 91 and every
    [num] is at most 10 (and at least 1). *)
Theorem perform_search_requests self query max_results w :
  exists new,
    sent (snd (_perform_search self query max_results w)) = sent w ++ new
    /\ forall (i : nat) (r : request),
        new !! i = Some r ->
        req_start r = 1 + 10 * Z.of_nat i
        /\ req_start r <= 91
        /\ 1 <= req_num r <= 10.
Proof. apply search_loop_requests. Qed.

(** C3. For a positive [max_results], a list that [_perform_search]
    returns has at most [max_results] items, however many the answers of
    the API held; and it does return a list whenever every answer of the
    API is well-formed. *)
Theorem perform_search_at_most_max self query max_results w :
  0 < max_results ->
  (forall l w',
      _perform_search self query max_results w = (Returns l, w') ->
      len l <= max_results)
  /\ ((forall history, reply_ok (api w history)) ->
      exists l w',
        _perform_search self query max_results w = (Returns l, w')
        /\ len l <= max_results).
Proof.
  intros Hmax.
  assert (Hlen : forall l w',
             _perform_search self query max_results w = (Returns l, w') ->
             len l <= max_results).
  { intros l w' Hrun. apply search_loop_returns_slice in Hrun as [results' ->].
    apply slice_to_length. lia. }
  split; [exact Hlen|].
  intros Hapi.
  destruct (search_loop_total (turns_from 1) self query max_results [] 1 w Hapi)
    as (l & w' & Hrun).
  exists l, w'. split; [exact Hrun | exact (Hlen l w' Hrun)].
Qed.

Lemma perform_search_at_most_max_witness :
  0 < 2
  /\ (forall l w',
         _perform_search Sample.searcher "q" 2 Sample.generous = (Returns l, w') ->
         len l <= 2)
  /\ ((forall history, reply_ok (api Sample.generous history)) ->
      exists l w',
        _perform_search Sample.searcher "q" 2 Sample.generous = (Returns l, w')
        /\ len l <= 2).
Proof.
  split; [lia|].
  apply (perform_search_at_most_max Sample.searcher "q" 2 Sample.generous).
  lia.
Defined.

(** A sample run: each answer holds three items, two are kept. *)
Example perform_search_truncates :
  match fst (_perform_search Sample.searcher "q" 2 Sample.generous) with
  | Returns l => len l
  | Raises _ => -1
  end = 2.
Proof. reflexivity. Qed.

(** ** The loop over the sites *)

(** One turn of the [for site in sites] loop, by the outcome of the site's
    search. *)
Lemma search_sites_cons self keywords site rest max_results filetypes all_results w :
  search_sites self keywords (site :: rest) max_results filetypes all_results w =
  match _perform_search self (build_query keywords site filetypes) max_results
          (snd (print (searching_line site) w)) with
  | (Returns results, w') =>
      search_sites self keywords rest max_results filetypes
        (all_results ++ (tag site keywords <$> results)) (snd (sleep 1 w'))
  | (Raises e, w') =>
      search_sites self keywords rest max_results filetypes
        all_results (snd (print (error_line site e) w'))
  end.
Proof.
  simpl. rewrite bind_run. simpl. rewrite bind_run. unfold try_except.
  rewrite bind_run. unfold searching_line.
  destruct (_perform_search _ _ _ _) as [[results|e] w']; reflexivity.
Qed.

(** The loop over the sites never raises, and what it returns extends the
    list it started from. *)
Lemma search_sites_returns self keywords sites max_results filetypes all_results w :
  exists found w',
    search_sites self keywords sites max_results filetypes [] w = (Returns found, w')
    /\ search_sites self keywords sites max_results filetypes all_results w
       = (Returns (all_results ++ found), w').
Proof.
  revert all_results w.
  induction sites as [|site rest IH]; intros all_results w.
  - exists [], w. simpl. rewrite app_nil_r. split; reflexivity.
  - rewrite !search_sites_cons.
    destruct (_perform_search _ _ _ _) as [[results|e] w1].
    + destruct (IH (tag site keywords <$> results) (snd (sleep 1 w1)))
        as (found & w' & H0 & H1).
      destruct (IH (all_results ++ (tag site keywords <$> results)) (snd (sleep 1 w1)))
        as (found' & w'' & H0' & H2).
      rewrite H0 in H0'. injection H0' as <- <-.
      exists ((tag site keywords <$> results) ++ found), w'.
      rewrite app_nil_l, H1, H2, <- app_assoc. split; reflexivity.
    + destruct (IH [] (snd (print (error_line site e) w1))) as (found & w' & H0 & _).
      destruct (IH all_results (snd (print (error_line site e) w1)))
        as (found' & w'' & H0' & H2).
      rewrite H0 in H0'. injection H0' as <- <-.
      exists found, w'. split; assumption.
Qed.

Lemma search_sites_app self keywords sites1 sites2 max_results filetypes all_results w :
  search_sites self keywords (sites1 ++ sites2) max_results filetypes all_results w =
  match search_sites self keywords sites1 max_results filetypes all_results w with
  | (Returns found, w') =>
      search_sites self keywords sites2 max_results filetypes found w'
  | (Raises e, w') => (Raises e, w')
  end.
Proof.
  revert all_results w.
  induction sites1 as [|site rest IH]; intros all_results w; [reflexivity|].
  rewrite <- app_comm_cons, !search_sites_cons.
  destruct (_perform_search _ _ _ _) as [[results|e] w1]; apply IH.
Qed.

(** *** Tagging *)

Lemma dict_get_set_eq (key : string) (v : pyval) (d : pydict) :
  dict_get key (dict_set key v d) = Some v.
Proof.
  induction d as [|[k v'] d IH]; simpl.
  - rewrite String.eqb_refl. reflexivity.
  - destruct (String.eqb k key) eqn:E; simpl; rewrite E; [reflexivity | exact IH].
Qed.

Lemma dict_get_set_ne (key key' : string) (v : pyval) (d : pydict) :
  key <> key' -> dict_get key' (dict_set key v d) = dict_get key' d.
Proof.
  intros Hne. induction d as [|[k v'] d IH]; simpl.
  - apply String.eqb_neq in Hne. rewrite Hne. reflexivity.
  - destruct (String.eqb k key) eqn:E; simpl.
    + apply String.eqb_eq in E. subst k.
      apply String.eqb_neq in Hne. rewrite Hne. reflexivity.
    + rewrite IH. reflexivity.
Qed.

Lemma tag_source_site site keywords result :
  dict_get "source_site" (tag site keywords result) = Some (PStr site).
Proof.
  unfold tag. rewrite dict_get_set_ne by discriminate. apply dict_get_set_eq.
Qed.

Lemma tag_search_keywords site keywords result :
  dict_get "search_keywords" (tag site keywords result)
  = Some (PList (PStr <$> keywords)).
Proof. unfold tag. apply dict_get_set_eq. Qed.

Lemma elem_of_concat {A} (x : A) (ls : list (list A)) :
  x ∈ concat ls <-> exists l, x ∈ l /\ l ∈ ls.
Proof.
  induction ls as [|l0 ls IH]; simpl.
  - split; [inversion 1 | intros (l & _ & H); inversion H].
  - rewrite elem_of_app, IH. split.
    + intros [H | (l & H1 & H2)]; [exists l0; split; [exact H | left]|].
      exists l. split; [exact H1 | right; exact H2].
    + intros (l & H1 & H2). apply elem_of_cons in H2 as [-> | H2]; [left; exact H1|].
      right. eauto.
Qed.


(** *** The console only grows *)

Lemma search_page_console self query max_results results start_index w :
  console w `prefix_of` console (snd (search_page self query max_results results start_index w)).
Proof.
  unfold search_page. rewrite bind_run. unfold requests_get.
  destruct (api w _) as [e|resp]; [reflexivity|].
  destruct (negb _); [simpl; apply prefix_app_r; reflexivity|].
  rewrite bind_run, lift_run.
  destruct (json_body resp) as [data|e]; [|reflexivity].
  rewrite bind_run, lift_run.
  destruct (py_contains "items" data) as [[|]|e]; simpl; try reflexivity.
  rewrite bind_run, lift_run.
  destruct (py_getitem data "items") as [items|e]; [|reflexivity].
  rewrite bind_run, lift_run.
  destruct (py_iter items) as [elements|e]; [|reflexivity].
  rewrite bind_run.
  match goal with
  | |- context [for_each make_result elements ?w0] =>
      pose proof (for_each_make_result_world elements w0) as Hw;
      destruct (for_each make_result elements w0) as [[new|e] w1]
  end; simpl in Hw; subst w1; reflexivity.
Qed.

Lemma search_loop_console fuel self query max_results results start_index w :
  console w `prefix_of`
    console (snd (search_loop fuel self query max_results results start_index w)).
Proof.
  revert results start_index w.
  induction fuel as [|fuel IH]; intros results start_index w; simpl;
    destruct ((len results <? max_results) && (start_index <=? 91));
    try reflexivity.
  rewrite bind_run.
  pose proof (search_page_console self query max_results results start_index w) as Hpage.
  destruct (search_page self query max_results results start_index w)
    as [[[|results']|e] w1]; simpl in Hpage; try exact Hpage.
  etransitivity; [exact Hpage | apply IH].
Qed.

Lemma search_sites_console self keywords sites max_results filetypes all_results w :
  console w `prefix_of`
    console (snd (search_sites self keywords sites max_results filetypes all_results w)).
Proof.
  revert all_results w.
  induction sites as [|site rest IH]; intros all_results w; [reflexivity|].
  rewrite search_sites_cons.
  pose proof (search_loop_console (turns_from 1) self
                (build_query keywords site filetypes) max_results [] 1
                (snd (print (searching_line site) w))) as Hrun.
  fold (_perform_search self (build_query keywords site filetypes) max_results
          (snd (print (searching_line site) w))) in Hrun.
  destruct (_perform_search _ _ _ _) as [[results|e] w1]; simpl in Hrun;
    (etransitivity; [|apply IH]); simpl;
    (etransitivity; [|exact Hrun || (apply prefix_app_r; exact Hrun)]);
    apply prefix_app_r; reflexivity.
Qed.

(** C6. When the search of a site raises, [search_books] catches the
    exception and prints it; the aggregate stays as the sites before left
    it, the sites after are searched, and [search_books] returns. *)
Theorem search_books_survives_site_exception
    self keywords before site after max_results filetypes w found w1 e w2 :
  search_sites self keywords before max_results filetypes [] w = (Returns found, w1) ->
  _perform_search self (build_query keywords site filetypes) max_results
    (snd (print (searching_line site) w1)) = (Raises e, w2) ->
  exists rest w3,
    search_sites self keywords after max_results filetypes []
      (snd (print (error_line site e) w2)) = (Returns rest, w3)
    /\ search_books self keywords (Some (before ++ site :: after)) max_results filetypes w
       = (Returns (found ++ rest), w3)
    /\ error_line site e ∈ console w3.
Proof.
  intros Hbefore Hsite.
  destruct (search_sites_returns self keywords after max_results filetypes found
              (snd (print (error_line site e) w2))) as (rest & w3 & Hrest & Hall).
  exists rest, w3. split; [exact Hrest|]. split.
  - unfold search_books. simpl default.
    rewrite search_sites_app, Hbefore, search_sites_cons, Hsite. exact Hall.
  - pose proof (search_sites_console self keywords after max_results filetypes []
                  (snd (print (error_line site e) w2))) as [more Hmore].
    rewrite Hrest in Hmore. simpl in Hmore. rewrite Hmore.
    apply elem_of_app. left. apply elem_of_app. right. left.
Qed.

Lemma search_books_survives_site_exception_witness :
  exists rest w3,
    search_sites Sample.searcher ["x"] ["c.net"] 1 None []
      (snd (print (error_line "b.org"
                     (Exn (OtherError "ConnectionError") "connection refused"))
              (snd (_perform_search Sample.searcher (build_query ["x"] "b.org" None) 1
                      (snd (print (searching_line "b.org")
                              (snd (search_sites Sample.searcher ["x"] ["a.com"] 1 None []
                                      Sample.flaky))))))))
    = (Returns rest, w3)
    /\ search_books Sample.searcher ["x"] (Some (["a.com"] ++ "b.org" :: ["c.net"])) 1 None
         Sample.flaky
       = (Returns
            ([tag "a.com" ["x"]
                [("title", PStr "one"); ("link", PStr "https://a.com/one");
                 ("snippet", PStr EmptyString); ("displayLink", PStr EmptyString);
                 ("formattedUrl", PStr EmptyString)]] ++ rest), w3)
    /\ "Error searching on b.org: connection refused" ∈ console w3.
Proof.
  apply (search_books_survives_site_exception
           Sample.searcher ["x"] ["a.com"] "b.org" ["c.net"] 1 None Sample.flaky
           _ (snd (search_sites Sample.searcher ["x"] ["a.com"] 1 None [] Sample.flaky))
           (Exn (OtherError "ConnectionError") "connection refused")
           _).
  - vm_compute. reflexivity.
  - vm_compute. reflexivity.
Defined.

(** The loop over [rest], entered after the sites [before], appends for
    each site what its own search found, tagged with that site. *)
Lemma search_sites_found self keywords max_results filetypes w rest :
  forall before acc w1 all_results,
    search_sites self keywords before max_results filetypes [] w = (Returns acc, w1) ->
    exists w',
      search_sites self keywords rest max_results filetypes all_results w1
      = (Returns
           (all_results
            ++ concat
                 (imap
                    (fun n site =>
                       tag site keywords
                         <$> found_by
                               (site_search self keywords (before ++ rest) max_results
                                  filetypes w (length before + n)%nat site))
                    rest)),
         w').
Proof.
  induction rest as [|site rest IH]; intros before acc w1 all_results Hbefore.
  - exists w1. simpl. rewrite app_nil_r. reflexivity.
  - rewrite search_sites_cons, imap_cons. simpl concat.
    assert (Hsearch :
             site_search self keywords (before ++ site :: rest) max_results filetypes w
               (length before + 0)%nat site
             = fst (_perform_search self (build_query keywords site filetypes) max_results
                      (snd (print (searching_line site) w1)))).
    { unfold site_search. rewrite Nat.add_0_r, take_app_length, Hbefore. reflexivity. }
    assert (Hshift :
             forall (f : nat -> string -> list pydict),
               imap ((fun n s =>
                        tag s keywords
                          <$> found_by
                                (site_search self keywords (before ++ site :: rest)
                                   max_results filetypes w (length before + n)%nat s)) ∘ S)
                 rest
               = imap (fun n s =>
                         tag s keywords
                           <$> found_by
                                 (site_search self keywords ((before ++ [site]) ++ rest)
                                    max_results filetypes w
                                    (length (before ++ [site]) + n)%nat s))
                   rest).
    { intros _. apply imap_ext. intros n s _. simpl.
      rewrite length_app, <- app_assoc. simpl.
      replace (length before + 1 + n)%nat with (length before + S n)%nat by lia.
      reflexivity. }
    rewrite (Hshift (fun _ _ => [])), Hsearch.
    destruct (_perform_search _ _ _ _) as [[results|e] w2] eqn:Hrun.
    + assert (Hbefore' :
               search_sites self keywords (before ++ [site]) max_results filetypes [] w
               = (Returns (acc ++ (tag site keywords <$> results)), snd (sleep 1 w2))).
      { rewrite search_sites_app, Hbefore, search_sites_cons, Hrun. reflexivity. }
      destruct (IH (before ++ [site]) _ _ (all_results ++ (tag site keywords <$> results))
                  Hbefore') as [w' Hrest].
      exists w'. rewrite Hrest, <- app_assoc. reflexivity.
    + assert (Hbefore' :
               search_sites self keywords (before ++ [site]) max_results filetypes [] w
               = (Returns acc, snd (print (error_line site e) w2))).
      { rewrite search_sites_app, Hbefore, search_sites_cons, Hrun. reflexivity. }
      destruct (IH (before ++ [site]) _ _ all_results Hbefore') as [w' Hrest].
      exists w'. rewrite Hrest. reflexivity.
Qed.

(** C9. [search_books] returns, and its aggregate is made, site after
    site in the order of the list searched, of the results that the search
    of that site found in this run, each tagged with that site and the
    keyword list.  So every result of the aggregate is a result that the
    search of some site of the list found in this run, and carries that
    site under [source_site] and the keyword list under
    [search_keywords]. *)
Theorem search_books_results_tagged self keywords sites max_results filetypes w :
  let searched := default (ebook_sites self) sites in
  let found n site :=
    found_by (site_search self keywords searched max_results filetypes w n site) in
  exists w',
    search_books self keywords sites max_results filetypes w
    = (Returns (concat (imap (fun n site => tag site keywords <$> found n site) searched)),
       w')
    /\ Forall
         (fun result =>
            exists n site found_result,
              searched !! n = Some site
              /\ found_result ∈ found n site
              /\ result = tag site keywords found_result
              /\ dict_get "source_site" result = Some (PStr site)
              /\ dict_get "search_keywords" result = Some (PList (PStr <$> keywords)))
         (concat (imap (fun n site => tag site keywords <$> found n site) searched)).
Proof.
  intros searched found. unfold search_books. fold searched.
  destruct (search_sites_found self keywords max_results filetypes w searched
              [] [] w [] eq_refl) as [w' Hrun].
  exists w'. split; [exact Hrun|].
  apply Forall_forall. intros result Hresult.
  apply elem_of_concat in Hresult as (block & Hresult & Hblock).
  apply elem_of_lookup_imap in Hblock as (n & site & -> & Hsite).
  apply list_elem_of_fmap in Hresult as (found_result & -> & Hfound).
  exists n, site, found_result.
  split; [exact Hsite|]. split; [exact Hfound|]. split; [reflexivity|].
  split; [apply tag_source_site | apply tag_search_keywords].
Qed.

(** The sample run over a.com, b.org and c.net: the search of b.org
    raises and finds nothing, the two others find one result each. *)
Example site_search_flaky :
  let found n site :=
    found_by (site_search Sample.searcher ["x"] ["a.com"; "b.org"; "c.net"] 1 None
                Sample.flaky n site) in
  length (found 0%nat "a.com") = 1%nat
  /\ found 1%nat "b.org" = []
  /\ length (found 2%nat "c.net") = 1%nat.
Proof. repeat split; vm_compute; reflexivity. Qed.

(** ** Answers with a status other than 200 *)

Lemma after_turns_loop n self query max_results results start_index w results' start' w' :
  after_turns n self query max_results results start_index w
  = Some (results', start', w') ->
  search_loop (turns_from start_index) self query max_results results start_index w
  = search_loop (turns_from start') self query max_results results' start' w'.
Proof.
  revert results start_index w.
  induction n as [|n IH]; intros results start_index w; simpl.
  - intros [= -> -> ->]. reflexivity.
  - destruct (len results <? max_results) eqn:Hlen; simpl; [|discriminate].
    destruct (start_index <=? 91) eqn:Hstart; simpl; [|discriminate].
    destruct (search_page self query max_results results start_index w)
      as [[[|results1]|e] w1] eqn:Hpage; try discriminate.
    intros Hrest. rewrite <- (IH _ _ _ Hrest).
    pose proof (perform_search_loop_unfold self query max_results results start_index w) as Hun.
    simpl in Hun. rewrite Hun, Hlen, Hstart, Hpage. reflexivity.
Qed.

(** An answer with a status other than 200 ends the loop: the status is
    printed and the results collected so far are returned. *)
Lemma search_loop_non_200 self query max_results results start_index w resp :
  len results < max_results ->
  start_index <= 91 ->
  api w (sent w ++ [page_request self query max_results results start_index])
  = HttpReply resp ->
  status_code resp <> 200 ->
  search_loop (turns_from start_index) self query max_results results start_index w
  = (Returns results,
     snd (print ("API Error: " +:+ Str.of_Z (status_code resp))
            (set_sent (sent w ++ [page_request self query max_results results start_index]) w))).
Proof.
  intros Hlen Hstart Hreply Hstatus.
  pose proof (perform_search_loop_unfold self query max_results results start_index w) as Hun.
  simpl in Hun. rewrite Hun. clear Hun.
  apply Z.ltb_lt in Hlen as Hlen'. apply Z.leb_le in Hstart as Hstart'.
  rewrite Hlen', Hstart'. simpl.
  unfold search_page.
  rewrite bind_run. unfold requests_get. rewrite Hreply.
  apply Z.eqb_neq in Hstatus. rewrite Hstatus. simpl.
  unfold slice_to, len in *.
  destruct (0 <=? max_results) eqn:E; [|apply Z.leb_gt in E; lia].
  rewrite take_ge by lia. reflexivity.
Qed.

(** C4, as the code has it.  When a request of a site's pagination gets
    an answer with a status other than 200, the status is printed and the
    pagination ends without an exception; the site contributes the results
    of the turns before that request (none when it is the first), and the
    loop goes on to the next site. *)
Theorem non_200_ends_site_pagination
    self keywords site rest max_results filetypes all_results w
    n results start_index w1 resp :
  let query := build_query keywords site filetypes in
  let request := page_request self query max_results results start_index in
  let w2 :=
    snd (print ("API Error: " +:+ Str.of_Z (status_code resp))
           (set_sent (sent w1 ++ [request]) w1)) in
  after_turns n self query max_results [] 1 (snd (print (searching_line site) w))
  = Some (results, start_index, w1) ->
  len results < max_results ->
  start_index <= 91 ->
  api w1 (sent w1 ++ [request]) = HttpReply resp ->
  status_code resp <> 200 ->
  _perform_search self query max_results (snd (print (searching_line site) w))
  = (Returns results, w2)
  /\ (n = O -> results = [])
  /\ search_sites self keywords (site :: rest) max_results filetypes all_results w
     = search_sites self keywords rest max_results filetypes
         (all_results ++ (tag site keywords <$> results)) (snd (sleep 1 w2)).
Proof.
  intros query request w2 Hturns Hlen Hstart Hreply Hstatus.
  assert (Hrun : _perform_search self query max_results
                   (snd (print (searching_line site) w)) = (Returns results, w2)).
  { unfold _perform_search. rewrite (after_turns_loop _ _ _ _ _ _ _ _ _ _ Hturns).
    apply search_loop_non_200; assumption. }
  split; [exact Hrun|]. split.
  - intros ->. simpl in Hturns. injection Hturns as <- _ _. reflexivity.
  - rewrite search_sites_cons. fold query. rewrite Hrun. reflexivity.
Qed.

Lemma non_200_ends_site_pagination_witness :
  let query := build_query ["x"] "a.com" None in
  let w0 := snd (print (searching_line "a.com") Sample.failing_second) in
  let first :=
    [("title", PStr "one"); ("link", PStr "https://a.com/one");
     ("snippet", PStr EmptyString); ("displayLink", PStr EmptyString);
     ("formattedUrl", PStr EmptyString)] in
  let w1 := snd (search_page Sample.searcher query 5 [] 1 w0) in
  let resp := Response 500 (Raises (Exn ValueError "no JSON")) in
  let request := page_request Sample.searcher query 5 [first] 11 in
  let w2 := snd (print "API Error: 500" (set_sent (sent w1 ++ [request]) w1)) in
  _perform_search Sample.searcher query 5 w0 = (Returns [first], w2)
  /\ (1%nat = O -> [first] = [])
  /\ search_sites Sample.searcher ["x"] ["a.com"; "b.org"] 5 None [] Sample.failing_second
     = search_sites Sample.searcher ["x"] ["b.org"] 5 None
         ([] ++ (tag "a.com" ["x"] <$> [first])) (snd (sleep 1 w2)).
Proof.
  intros query w0 first w1 resp request w2.
  apply (non_200_ends_site_pagination
           Sample.searcher ["x"] "a.com" ["b.org"] 5 None [] Sample.failing_second
           1 [first] 11 w1 resp).
  - vm_compute. reflexivity.
  - vm_compute. reflexivity.
  - vm_compute. discriminate.
  - vm_compute. reflexivity.
  - vm_compute. discriminate.
Defined.

(** C4 as stated fails: a site whose second request gets status 500
    still contributes the result of its first page. *)
Lemma non_200_site_still_contributes :
  ~ (forall self keywords site max_results filetypes w l w',
        search_books self keywords (Some [site]) max_results filetypes w
        = (Returns l, w') ->
        got_non_200 w w' ->
        l = []).
Proof.
  intros H.
  eassert (E : search_books Sample.searcher ["x"] (Some ["a.com"]) 5 None
                 Sample.failing_second = (Returns _, _))
    by (vm_compute; reflexivity).
  specialize (H _ _ _ _ _ _ _ _ E).
  assert (Hne : got_non_200 Sample.failing_second
                  (snd (search_books Sample.searcher ["x"] (Some ["a.com"]) 5 None
                          Sample.failing_second))).
  { exists (sent (snd (search_books Sample.searcher ["x"] (Some ["a.com"]) 5 None
                         Sample.failing_second))),
           (Response 500 (Raises (Exn ValueError "no JSON"))).
    split; [reflexivity|]. split; [vm_compute; lia|].
    split; [vm_compute; reflexivity | vm_compute; discriminate]. }
  rewrite E in Hne. specialize (H Hne). discriminate H.
Qed.

(** ** Configuration *)

(** What [load_environment_variables] does, in one equation. *)
Lemma load_environment_variables_run py_int w :
  let env := environ w ∪ dotenv w in
  let clean name :=
    Str.strip <$>
      List.filter (fun value => Str.truthy (Str.strip value))
        (Str.split "," (default EmptyString (env !! name))) in
  load_environment_variables py_int w =
  (match match env !! "MAX_RESULTS_PER_SITE" with
         | Some text => py_int text
         | None => Returns 10
         end with
   | Raises e =>
       Raises (match exn_cls e with
               | ImportError =>
                   Exn ImportError
                     "Please install python-dotenv to load environment variables."
               | _ =>
                   Exn RuntimeError
                     ("Error loading environment variables: " +:+ exn_msg e)
               end)
   | Returns cap =>
       match env !! "API_KEY", env !! "SEARCH_ENGINE_ID" with
       | Some key, Some engine_id =>
           Returns (key, engine_id, clean "KEYWORDS", clean "FILETYPES", cap)
       | _, _ =>
           Raises (Exn ValueError
                     "Please set GOOGLE_API_KEY, GOOGLE_CSE_ID, and SEARCH_KEYWORDS in your .env file.")
       end
   end,
   set_environ env w).
Proof.
  unfold load_environment_variables, load_and_clean_env_list, try_except,
    load_dotenv, os_getenv, lift, raise, mbind, M_bind, mret, M_ret.
  simpl.
  destruct ((environ w ∪ dotenv w) !! "MAX_RESULTS_PER_SITE") as [text|];
    [destruct (py_int text) as [cap|e]; [|destruct (exn_cls e); reflexivity]|];
    (destruct ((environ w ∪ dotenv w) !! "API_KEY");
     [destruct ((environ w ∪ dotenv w) !! "SEARCH_ENGINE_ID")|]; reflexivity).
Qed.

(** Loading the configuration sends no request. *)
Lemma load_environment_variables_offline py_int w :
  sent (snd (load_environment_variables py_int w)) = sent w.
Proof. rewrite load_environment_variables_run. reflexivity. Qed.

(** A missing API key or engine id makes the loader raise. *)
Lemma load_environment_variables_missing_credentials py_int w :
  (environ w ∪ dotenv w) !! "API_KEY" = None
  \/ (environ w ∪ dotenv w) !! "SEARCH_ENGINE_ID" = None ->
  exists e, fst (load_environment_variables py_int w) = Raises e.
Proof.
  intros Hmissing. rewrite load_environment_variables_run. simpl.
  destruct (match _ !! "MAX_RESULTS_PER_SITE" with Some _ => _ | None => _ end);
    [|eauto].
  destruct Hmissing as [-> | ->]; [eauto|].
  destruct (_ !! "API_KEY"); eauto.
Qed.

(** C5, where the code departs from it.  With both credentials set and no
    keyword list, [load_environment_variables] raises nothing: it returns
    the configuration with an empty keyword list. *)
Theorem load_environment_variables_without_keywords (py_int : string -> outcome Z) :
  environ Sample.no_keywords !! "KEYWORDS" = None
  /\ dotenv Sample.no_keywords !! "KEYWORDS" = None
  /\ fst (load_environment_variables py_int Sample.no_keywords)
     = Returns ("key", "engine", [], [], 10).
Proof. repeat split; vm_compute; reflexivity. Qed.

(** ** The site pattern *)

Lemma append_empty_l (s : string) : EmptyString +:+ s = s.
Proof. reflexivity. Qed.

Lemma append_cons (c : ascii) (s t : string) : String c s +:+ t = String c (s +:+ t).
Proof. reflexivity. Qed.

Lemma append_empty_r (s : string) : s +:+ EmptyString = s.
Proof.
  induction s as [|c s IH]; [reflexivity | rewrite append_cons, IH; reflexivity].
Qed.

Lemma append_assoc (s t u : string) : (s +:+ t) +:+ u = s +:+ (t +:+ u).
Proof.
  induction s as [|c s IH]; [reflexivity|].
  rewrite !append_cons, IH. reflexivity.
Qed.

Lemma append_is_empty (s1 s2 : string) :
  s1 +:+ s2 = EmptyString -> s1 = EmptyString /\ s2 = EmptyString.
Proof.
  destruct s1; [rewrite append_empty_l; auto | rewrite append_cons; discriminate].
Qed.

Lemma lang_nullable r s : lang r s -> s = EmptyString -> nullable r = true.
Proof.
  induction 1; intros Hs; simpl; try reflexivity; try discriminate.
  - apply append_is_empty in Hs as [-> ->]. rewrite IHlang1, IHlang2; reflexivity.
  - rewrite IHlang by assumption. reflexivity.
  - rewrite IHlang by assumption. apply orb_true_r.
Qed.

Lemma nullable_lang r : nullable r = true -> lang r EmptyString.
Proof.
  induction r; simpl; intros H; try discriminate.
  - constructor.
  - apply andb_true_iff in H as [H1 H2].
    change EmptyString with (EmptyString +:+ EmptyString). constructor; auto.
  - apply orb_true_iff in H as [H|H]; [apply lang_alt_l | apply lang_alt_r]; auto.
  - constructor.
Qed.

Lemma deriv_lang c r s : lang (deriv c r) s -> lang r (String c s).
Proof.
  revert s. induction r; simpl; intros s H.
  - inversion H.
  - inversion H.
  - destruct (p c) eqn:Hp; inversion H; subst. constructor. exact Hp.
  - destruct (nullable r1) eqn:Hn.
    + inversion H as [| | | ? ? ? Hl | ? ? ? Hr | |]; subst.
      * inversion Hl as [| |? ? s1 s2 H1 H2 | | | |]; subst.
        change (String c (s1 +:+ s2)) with (String c s1 +:+ s2).
        constructor; auto.
      * change (String c s) with (EmptyString +:+ String c s).
        constructor; [apply nullable_lang; exact Hn | auto].
    + inversion H as [| |? ? s1 s2 H1 H2 | | | |]; subst.
      change (String c (s1 +:+ s2)) with (String c s1 +:+ s2).
      constructor; auto.
  - inversion H; subst; [apply lang_alt_l | apply lang_alt_r]; auto.
  - inversion H as [| |? ? s1 s2 H1 H2 | | | |]; subst.
    change (String c (s1 +:+ s2)) with (String c s1 +:+ s2).
    constructor; auto.
Qed.

Lemma lang_deriv r s' :
  lang r s' -> forall c s, s' = String c s -> lang (deriv c r) s.
Proof.
  induction 1 as [| p a Hp | r1 r2 s1 s2 H1 IH1 H2 IH2 | r1 r2 s0 H1 IH1
                 | r1 r2 s0 H2 IH2 | r | r s1 s2 H1 IH1 H2 IH2];
    intros c s Hs; simpl.
  - discriminate.
  - injection Hs as -> <-. rewrite Hp. constructor.
  - destruct s1 as [|a s1]; rewrite ?append_empty_l, ?append_cons in Hs.
    + rewrite (lang_nullable _ _ H1 eq_refl). apply lang_alt_r. auto.
    + injection Hs as -> <-.
      destruct (nullable r1); [apply lang_alt_l|]; constructor; auto.
  - apply lang_alt_l. auto.
  - apply lang_alt_r. auto.
  - discriminate.
  - destruct s1 as [|a s1]; rewrite ?append_empty_l, ?append_cons in Hs.
    + apply (IH2 c s Hs).
    + injection Hs as -> <-. constructor; auto.
Qed.

(** The matcher decides the language. *)
Lemma accepts_lang r s : accepts r s = true <-> lang r s.
Proof.
  revert r. induction s as [|c s IH]; intros r; simpl.
  - split; [apply nullable_lang | intros H; apply (lang_nullable _ _ H eq_refl)].
  - rewrite IH. split; [apply deriv_lang | intros H; apply (lang_deriv _ _ H _ _ eq_refl)].
Qed.

Lemma lang_class_inv p s :
  lang (Class p) s -> exists c, s = String c EmptyString /\ p c = true.
Proof. inversion 1; subst; eauto. Qed.

Lemma lang_cat_inv r1 r2 s :
  lang (Cat r1 r2) s -> exists s1 s2, s = s1 +:+ s2 /\ lang r1 s1 /\ lang r2 s2.
Proof. inversion 1; subst; eauto. Qed.

Lemma lang_star_class p s :
  lang (Star (Class p)) s <-> Forall (fun c => p c = true) (Str.chars s).
Proof.
  split.
  - intros H. remember (Star (Class p)) as r eqn:Hr.
    induction H as [| | | | | r0 | r0 s1 s2 H1 _ H2 IH2]; try discriminate.
    + constructor.
    + injection Hr as ->.
      apply lang_class_inv in H1 as (c & -> & Hc).
      rewrite append_cons, append_empty_l. simpl. constructor; auto.
  - induction s as [|c s IH]; simpl; intros H.
    + constructor.
    + inversion H; subst.
      change (String c s) with (String c EmptyString +:+ s).
      constructor; [constructor; assumption | auto].
Qed.

Lemma lang_plus_class p s :
  lang (plus (Class p)) s
  <-> s <> EmptyString /\ Forall (fun c => p c = true) (Str.chars s).
Proof.
  unfold plus. split.
  - intros H. apply lang_cat_inv in H as (s1 & s2 & -> & H1 & H2).
    apply lang_class_inv in H1 as (c & -> & Hc).
    apply lang_star_class in H2.
    rewrite append_cons, append_empty_l. split; [discriminate|].
    simpl. constructor; assumption.
  - intros [Hne H]. destruct s as [|c s]; [congruence|].
    simpl in H. inversion H; subst.
    change (String c s) with (String c EmptyString +:+ s).
    constructor; [constructor; assumption | apply lang_star_class; assumption].
Qed.

Lemma host_char_name_char c : host_char c = true <-> name_char c.
Proof.
  unfold host_char, name_char, Str.is_letter.
  rewrite !orb_true_iff, !Ascii.eqb_eq. tauto.
Qed.

(** The pattern of [get_ebook_sites] accepts the host-name-like texts. *)
Lemma url_pattern_hostname_like s : lang url_pattern s <-> hostname_like s.
Proof.
  unfold url_pattern, hostname_like. split.
  - intros H.
    apply lang_cat_inv in H as (name & t & -> & Hname & H).
    apply lang_cat_inv in H as (d & t2 & -> & Hd & H).
    apply lang_cat_inv in H as (l1 & l2 & -> & Hl1 & Hl2).
    apply lang_plus_class in Hname as [Hne Hname].
    apply lang_class_inv in Hd as (c & -> & Hc). apply Ascii.eqb_eq in Hc. subst c.
    apply lang_class_inv in Hl1 as (a & -> & Ha).
    apply lang_plus_class in Hl2 as [Hne2 Hl2].
    exists name, (String a l2). repeat split.
    + exact Hne.
    + eapply Forall_impl; [exact Hname|]. intros x. apply host_char_name_char.
    + destruct l2; [congruence|]. simpl. lia.
    + simpl. constructor; assumption.
  - intros (name & suffix & -> & Hne & Hname & Hlen & Hsuffix).
    destruct suffix as [|a [|b rest]]; simpl in Hlen; try lia.
    simpl in Hsuffix. inversion Hsuffix as [|? ? Ha Hrest]; subst.
    constructor.
    + apply lang_plus_class. split; [exact Hne|].
      eapply Forall_impl; [exact Hname|]. intros x. apply host_char_name_char.
    + change ("." +:+ String a (String b rest))
        with (String "." EmptyString +:+ (String a EmptyString +:+ String b rest)).
      constructor; [constructor; reflexivity|].
      constructor; [constructor; exact Ha|].
      apply lang_plus_class. split; [discriminate | exact Hrest].
Qed.

Lemma chop_newline_some t t' :
  chop_newline t = Some t' -> t = t' +:+ String LF EmptyString.
Proof.
  revert t'. induction t as [|c t IH]; intros t'; [discriminate|].
  destruct t as [|c2 t2].
  - simpl. destruct (Ascii.eqb c LF) eqn:E; [|discriminate].
    apply Ascii.eqb_eq in E. intros [= <-]. subst c. reflexivity.
  - change (chop_newline (String c (String c2 t2)))
      with (String c <$> chop_newline (String c2 t2)).
    destruct (chop_newline (String c2 t2)) as [x|]; [|discriminate].
    intros [= <-]. rewrite append_cons. f_equal. apply IH. reflexivity.
Qed.

(** What [rstrip] leaves does not end in white space. *)
Lemma rstrip_last s t c :
  Str.rstrip s = t +:+ String c EmptyString -> Str.isspace c = false.
Proof.
  revert t. induction s as [|a s IH]; intros t; simpl.
  - destruct t; [rewrite append_empty_l | rewrite append_cons]; discriminate.
  - destruct (Str.rstrip s) as [|b r] eqn:E.
    + destruct (Str.isspace a) eqn:Ha.
      * destruct t; [rewrite append_empty_l | rewrite append_cons]; discriminate.
      * destruct t as [|x t]; [rewrite append_empty_l | rewrite append_cons].
        -- intros [= <-]. exact Ha.
        -- intros [= _ H]. destruct t; [rewrite append_empty_l in H
                                        | rewrite append_cons in H]; discriminate.
    + destruct t as [|x t]; [rewrite append_empty_l | rewrite append_cons].
      * discriminate.
      * intros [= _ H]. apply (IH t). exact H.
Qed.

Lemma strip_no_newline l : chop_newline (Str.strip l) = None.
Proof.
  destruct (chop_newline (Str.strip l)) as [t|] eqn:E; [|reflexivity].
  apply chop_newline_some in E. unfold Str.strip in E.
  apply rstrip_last in E. discriminate E.
Qed.

(** On a stripped line the test of [get_ebook_sites] holds exactly for the
    host-name-like texts. *)
Lemma re_match_stripped l :
  re_match url_pattern (Str.strip l) = true <-> hostname_like (Str.strip l).
Proof.
  unfold re_match. rewrite strip_no_newline, orb_false_r, accepts_lang.
  apply url_pattern_hostname_like.
Qed.

Lemma filter_selects lines :
  selects Str.strip hostname_like lines
    (Str.strip <$> List.filter (fun line => re_match url_pattern (Str.strip line)) lines).
Proof.
  induction lines as [|line lines IH]; simpl; [constructor|].
  destruct (re_match url_pattern (Str.strip line)) eqn:E.
  - simpl. apply selects_keep; [apply re_match_stripped; exact E | exact IH].
  - apply selects_skip; [|exact IH].
    intros H. apply re_match_stripped in H. congruence.
Qed.

(** On a file whose lines carry no white space around their text, the
    stripped text of a line is the line as written. *)
Lemma selects_unpadded lines sites :
  Forall (fun line => Str.strip line = line_text line) lines ->
  selects Str.strip hostname_like lines sites ->
  selects line_text hostname_like lines sites.
Proof.
  intros Hlines Hsel. induction Hsel as [|line lines sites HP _ IH|line lines sites HP _ IH];
    inversion Hlines as [|? ? Hline Hrest]; subst.
  - constructor.
  - rewrite Hline in *. apply selects_keep; auto.
  - rewrite Hline in *. apply selects_skip; auto.
Qed.

Example url_pattern_samples :
  re_match url_pattern "example.com" = true
  /\ re_match url_pattern "my-books.co.uk" = true
  /\ re_match url_pattern " example.com" = false
  /\ re_match url_pattern "example.c" = false
  /\ re_match url_pattern "example.c0m" = false
  /\ re_match url_pattern "https://example.com" = false
  /\ re_match url_pattern EmptyString = false.
Proof. repeat split; reflexivity. Qed.

(** C7, as the code has it.  The loaded list holds, in file order and with
    duplicates kept, the lines of the file stripped of surrounding white
    space, for exactly the lines whose stripped text is host-name-like.
    Loading raises [FileNotFoundError] when the file is absent and
    [ValueError] when no line qualifies. *)
Theorem get_ebook_sites_selects_stripped_lines file w :
  match fs w !! file with
  | None =>
      exists msg, get_ebook_sites file w = (Raises (Exn FileNotFoundError msg), w)
  | Some text =>
      exists sites,
        selects Str.strip hostname_like (file_lines text) sites
        /\ get_ebook_sites file w =
           match sites with
           | [] => (Raises (Exn ValueError "No ebook sites found in the file."), w)
           | _ =>
               (Returns sites,
                set_console
                  (console w ++ ["Found " +:+ Str.of_Z (len sites) +:+ " ebook sites."])
                  w)
           end
  end.
Proof.
  unfold get_ebook_sites. rewrite bind_run. unfold os_path_exists, read_lines.
  destruct (fs w !! file) as [text|] eqn:Hfile.
  - rewrite bool_decide_eq_true_2 by eauto. simpl. rewrite bind_run, Hfile.
    eexists. split; [apply filter_selects|].
    destruct (Str.strip <$> List.filter _ (file_lines text)); reflexivity.
  - rewrite bool_decide_eq_false_2 by (intros [? ?]; discriminate). simpl. eauto.
Qed.

(** C7 as stated fails: the line [" example.com"] is not host-name-like as
    written, yet the loaded list holds [example.com], which is no line of
    the file. *)
Lemma padded_line_is_loaded :
  ~ (forall file w text sites w',
        fs w !! file = Some text ->
        get_ebook_sites file w = (Returns sites, w') ->
        selects line_text hostname_like (file_lines text) sites).
Proof.
  intros H.
  eassert (Hrun : get_ebook_sites "ebook_sites.txt" Sample.padded_site_file
                  = (Returns ["example.com"], _)) by (vm_compute; reflexivity).
  assert (Hfile : fs Sample.padded_site_file !! "ebook_sites.txt"
                  = Some (" example.com" +:+ String LF EmptyString))
    by (vm_compute; reflexivity).
  specialize (H _ _ _ _ _ Hfile Hrun).
  vm_compute in H.
  inversion H as [| ? ? ? _ Hrest | ? ? ? _ Hrest]; subst; inversion Hrest.
Qed.

(** ** Saving *)

(** *** Reading back what the CSV writer wrote *)











(** *** The file of [save_results] *)





(** The file of two tagged results: the header and two rows; the title,
    which holds a comma, is written in quotes and read back as it was. *)
Example save_results_tagged :
  let r := [("title", PStr "T, vol. 1"); ("link", PStr "L")] in
  let results := [tag "a.com" ["x"] r; tag "b.org" ["x"] r] in
  let q := String Str.dquote EmptyString in
  let lf := String LF EmptyString in
  to_csv false (DataFrame_of Sample.cell_text results)
  = "title,link,source_site,search_keywords" +:+ lf
    +:+ q +:+ "T, vol. 1" +:+ q +:+ ",L,a.com,['x']" +:+ lf
    +:+ q +:+ "T, vol. 1" +:+ q +:+ ",L,b.org,['x']" +:+ lf
  /\ csv_read (to_csv false (DataFrame_of Sample.cell_text results))
     = [["title"; "link"; "source_site"; "search_keywords"];
        ["T, vol. 1"; "L"; "a.com"; "['x']"];
        ["T, vol. 1"; "L"; "b.org"; "['x']"]].
Proof. split; vm_compute; reflexivity. Qed.


(** The same result saved with a writer that quotes the carriage return:
    the header and one row. *)
Example carriage_return_quoted :
  let results := [[("snippet", PStr ("a" +:+ String CR "b"))]] in
  csv_read (to_csv true (DataFrame_of Sample.cell_text results))
  = [["snippet"]; ["a" +:+ String CR "b"]].
Proof. vm_compute. reflexivity. Qed.

(** * Further properties *)

(** ** More on the query builder *)

Lemma chars_append (s t : string) : Str.chars (s +:+ t) = Str.chars s ++ Str.chars t.
Proof.
  induction s as [|c s IH]; [reflexivity|].
  rewrite append_cons. simpl. rewrite IH. reflexivity.
Qed.

(** Whatever [quote] writes for one character is unreserved or a percent
    sign. *)
Lemma quote_char_safe (c : ascii) :
  forallb (fun x => Str.unreserved x || Ascii.eqb x "%") (Str.chars (Str.quote_char c))
  = true.
Proof. destruct c as [[] [] [] [] [] [] [] []]; vm_compute; reflexivity. Qed.

Lemma quote_safe (s : string) :
  Forall (fun x => Str.unreserved x = true \/ x = "%"%char) (Str.chars (Str.quote s)).
Proof.
  induction s as [|c s IH]; [constructor|].
  unfold Str.quote in *. simpl. rewrite chars_append. apply Forall_app. split; [|exact IH].
  apply Forall_forall. intros x Hx. apply list_elem_of_In in Hx.
  pose proof (proj1 (forallb_forall _ _) (quote_char_safe c) x Hx) as H.
  apply orb_true_iff in H as [H|H]; [left; exact H | right].
  apply Ascii.eqb_eq in H. exact H.
Qed.

(** X1. The query [build_query] returns is safe to put in a URL: each of
    its characters is a letter, a digit, one of [_.-~/], or a percent
    sign. *)
Theorem build_query_url_safe keywords site filetypes :
  Forall (fun c => Str.unreserved c = true \/ c = "%"%char)
    (Str.chars (build_query keywords site filetypes)).
Proof. apply quote_safe. Qed.

Lemma quote_append (s t : string) : Str.quote (s +:+ t) = Str.quote s +:+ Str.quote t.
Proof.
  unfold Str.quote. induction s as [|c s IH]; [reflexivity|].
  rewrite append_cons. simpl. rewrite IH, append_assoc. reflexivity.
Qed.

(** [quote] leaves a text of unreserved characters as it is. *)
Lemma quote_unreserved (s : string) :
  Forall (fun c => Str.unreserved c = true) (Str.chars s) -> Str.quote s = s.
Proof.
  unfold Str.quote. induction s as [|c s IH]; simpl; intros H; [reflexivity|].
  inversion H as [|? ? Hc Hs]; subst.
  assert (Str.quote_char c = String c EmptyString) as ->
    by (unfold Str.quote_char; rewrite Hc; reflexivity).
  rewrite append_cons, append_empty_l, IH by exact Hs. reflexivity.
Qed.

Lemma is_prefix_append (p s : string) : Str.is_prefix p (p +:+ s) = true.
Proof.
  induction p as [|c p IH]; [reflexivity|].
  rewrite append_cons. simpl. rewrite Ascii.eqb_refl. exact IH.
Qed.

Lemma contains_middle (a p b : string) : Str.contains p (a +:+ p +:+ b) = true.
Proof.
  induction a as [|c a IH].
  - rewrite append_empty_l. destruct (p +:+ b) eqn:E; simpl;
      rewrite <- E, is_prefix_append; reflexivity.
  - rewrite append_cons. simpl. rewrite IH. apply orb_true_r.
Qed.

Lemma contains_append_l (p s t : string) :
  Str.contains p s = true -> Str.contains p (t +:+ s) = true.
Proof.
  intros H. induction t as [|c t IH]; [exact H|].
  rewrite append_cons. simpl. rewrite IH. apply orb_true_r.
Qed.

Lemma is_prefix_append_r (p s t : string) :
  Str.is_prefix p s = true -> Str.is_prefix p (s +:+ t) = true.
Proof.
  revert s. induction p as [|c p IH]; intros [|d s]; simpl; try done.
  intros H. apply andb_true_iff in H as [H1 H2].
  rewrite H1. apply IH. exact H2.
Qed.

Lemma contains_append_r (p s t : string) :
  Str.contains p s = true -> Str.contains p (s +:+ t) = true.
Proof.
  induction s as [|c s IH]; intros H; simpl in H.
  - rewrite orb_false_r in H. destruct p; [|discriminate].
    rewrite append_empty_l. destruct t; reflexivity.
  - apply orb_true_iff in H as [H|H].
    + pose proof (is_prefix_append_r _ _ t H) as H'.
      rewrite append_cons in *. simpl. rewrite H'. reflexivity.
    + rewrite append_cons. simpl. rewrite (IH H). apply orb_true_r.
Qed.

(** A part of a joined text is in the text. *)
Lemma contains_join (sep part : string) (parts : list string) :
  part ∈ parts -> Str.contains part (Str.join sep parts) = true.
Proof.
  induction parts as [|p parts IH]; intros Hin; [inversion Hin|].
  assert (Hjoin : Str.join sep (p :: parts)
                  = match parts with [] => p | _ => p +:+ sep +:+ Str.join sep parts end)
    by (destruct parts; reflexivity).
  rewrite Hjoin.
  inversion Hin as [|? ? ? Hin']; subst.
  - destruct parts.
    + pose proof (contains_middle EmptyString p EmptyString) as H.
      rewrite append_empty_l, append_empty_r in H. exact H.
    + pose proof (contains_middle EmptyString p (sep +:+ Str.join sep (s :: parts))) as H.
      rewrite append_empty_l in H. exact H.
  - destruct parts as [|p' parts']; [inversion Hin'|].
    apply contains_append_l, contains_append_l, IH, Hin'.
Qed.

(** X2. The query before encoding holds each keyword between double
    quotes; it starts with the [site:] restriction when a site is given;
    and it holds [filetype:ft] for each file type given. *)
Theorem build_query_text_parts keywords site filetypes :
  (forall keyword,
      keyword ∈ keywords ->
      Str.contains (String Str.dquote (keyword +:+ String Str.dquote EmptyString))
        (build_query_text keywords site filetypes) = true)
  /\ (site <> EmptyString ->
      Str.is_prefix ("site:" +:+ site +:+ " ")
        (build_query_text keywords site filetypes) = true)
  /\ (forall ft,
        ft ∈ filetypes_given filetypes ->
        Str.contains ("filetype:" +:+ ft)
          (build_query_text keywords site filetypes) = true).
Proof.
  unfold build_query_text.
  set (quoted := fun keyword : string =>
                   String Str.dquote (keyword +:+ String Str.dquote EmptyString)).
  set (kq := Str.join " " (quoted <$> keywords)).
  set (head := (if Str.truthy site then EmptyString +:+ "site:" +:+ site +:+ " "
                else EmptyString) +:+ kq).
  assert (Hkw : forall keyword, keyword ∈ keywords -> Str.contains (quoted keyword) head = true).
  { intros keyword Hin. subst head. apply contains_append_l.
    apply contains_join. apply list_elem_of_fmap. eauto. }
  assert (Hsite : site <> EmptyString ->
                  Str.is_prefix ("site:" +:+ site +:+ " ") head = true).
  { intros Hne. subst head. destruct site; [congruence|]. simpl Str.truthy. cbv iota.
    rewrite append_empty_l. apply is_prefix_append. }
  destruct (filetypes_given filetypes) as [|ft0 fts] eqn:Hfts.
  - repeat split; [exact Hkw | exact Hsite | intros ft Hft; inversion Hft].
  - repeat split.
    + intros keyword Hin. apply contains_append_r. apply Hkw, Hin.
    + intros Hne. apply is_prefix_append_r. apply Hsite, Hne.
    + intros ft Hft. apply contains_append_l, contains_append_l.
      apply contains_join.
      apply (list_elem_of_fmap_2 (fun ft => "filetype:" +:+ ft)). exact Hft.
Qed.

(** X3. For a site of unreserved characters (every host name is one),
    the encoded query starts with [site%3A], the site as it is, and
    [%20]. *)
Theorem build_query_site_prefix keywords site filetypes :
  site <> EmptyString ->
  Forall (fun c => Str.unreserved c = true) (Str.chars site) ->
  Str.is_prefix ("site%3A" +:+ site +:+ "%20") (build_query keywords site filetypes)
  = true.
Proof.
  intros Hne Hsafe.
  assert (Hshape : exists rest,
             build_query_text keywords site filetypes
             = "site:" +:+ site +:+ " " +:+ rest).
  { unfold build_query_text. destruct site; [congruence|]. simpl Str.truthy. cbv iota.
    rewrite append_empty_l.
    destruct (filetypes_given filetypes); eexists; rewrite !append_assoc; reflexivity. }
  destruct Hshape as [rest Hshape].
  unfold build_query. rewrite Hshape, !quote_append, (quote_unreserved site Hsafe).
  change (Str.quote "site:") with "site%3A". change (Str.quote " ") with "%20".
  rewrite <- !append_assoc. apply is_prefix_append.
Qed.

Lemma build_query_site_prefix_witness :
  Str.is_prefix ("site%3A" +:+ "my-books.co.uk" +:+ "%20")
    (build_query ["x"] "my-books.co.uk" None) = true.
Proof.
  apply (build_query_site_prefix ["x"] "my-books.co.uk" None).
  - discriminate.
  - vm_compute. repeat constructor.
Defined.

(** ** More on the configuration *)

Lemma lstrip_no_lead s : no_lead (Str.lstrip s).
Proof.
  induction s as [|c s IH]; simpl; [exact I|].
  destruct (Str.isspace c) eqn:E; [exact IH | exact E].
Qed.

Lemma lstrip_id s : no_lead s -> Str.lstrip s = s.
Proof. destruct s as [|c s]; simpl; [reflexivity | intros ->; reflexivity]. Qed.

Lemma rstrip_no_lead s : no_lead s -> no_lead (Str.rstrip s).
Proof.
  destruct s as [|c s]; simpl; [auto|]. intros Hc.
  destruct (Str.rstrip s); [rewrite Hc|]; exact Hc.
Qed.

Lemma rstrip_idempotent s : Str.rstrip (Str.rstrip s) = Str.rstrip s.
Proof.
  induction s as [|c s IH]; simpl; [reflexivity|].
  destruct (Str.rstrip s) as [|d r] eqn:E.
  - destruct (Str.isspace c) eqn:Hc; simpl; [reflexivity | rewrite Hc; reflexivity].
  - change (Str.rstrip (String c (String d r)))
      with (match Str.rstrip (String d r) with
            | EmptyString => if Str.isspace c then EmptyString else String c EmptyString
            | r' => String c r'
            end).
    rewrite IH. reflexivity.
Qed.

(** [strip] is idempotent. *)
Lemma strip_idempotent s : Str.strip (Str.strip s) = Str.strip s.
Proof.
  unfold Str.strip.
  rewrite (lstrip_id (Str.rstrip (Str.lstrip s)))
    by (apply rstrip_no_lead, lstrip_no_lead).
  apply rstrip_idempotent.
Qed.

Lemma lstrip_chars s c : c ∈ Str.chars (Str.lstrip s) -> c ∈ Str.chars s.
Proof.
  induction s as [|a s IH]; simpl; [auto|].
  destruct (Str.isspace a); [intros H; right; auto | auto].
Qed.

Lemma rstrip_chars s c : c ∈ Str.chars (Str.rstrip s) -> c ∈ Str.chars s.
Proof.
  revert c. induction s as [|a s IH]; intros c; simpl; [auto|].
  destruct (Str.rstrip s) as [|d r] eqn:E.
  - destruct (Str.isspace a); simpl; [intros H; inversion H|].
    intros H. inversion H as [|? ? ? H']; subst; [left | inversion H'].
  - simpl. intros H. inversion H as [|? ? ? H']; subst; [left | right].
    apply IH. simpl. exact H'.
Qed.

Lemma strip_chars s c : c ∈ Str.chars (Str.strip s) -> c ∈ Str.chars s.
Proof. unfold Str.strip. intros H. apply lstrip_chars, rstrip_chars, H. Qed.

(** The parts [split] cuts hold no separator. *)
Lemma split_parts sep s part :
  part ∈ Str.split sep s -> sep ∉ Str.chars part.
Proof.
  revert part. induction s as [|c s IH]; intros part; simpl.
  - intros H. apply list_elem_of_singleton in H. subst. simpl. inversion 1.
  - destruct (Ascii.eqb c sep) eqn:E.
    + intros H. inversion H; subst; [simpl; inversion 1 | apply IH; assumption].
    + apply Ascii.eqb_neq in E.
      destruct (Str.split sep s) as [|h t] eqn:Hs.
      * intros H. apply list_elem_of_singleton in H. subst. simpl.
        intros H. inversion H as [|? ? ? H']; subst; [congruence | inversion H'].
      * intros H. inversion H as [|? ? ? H']; subst.
        -- simpl. intros Hin. inversion Hin as [|? ? ? Hin']; subst; [congruence|].
           apply (IH h); [left | exact Hin'].
        -- apply IH. right. exact H'.
Qed.

Lemma truthy_nonempty s : Str.truthy s = true <-> s <> EmptyString.
Proof. destruct s; simpl; split; congruence. Qed.

(** X4. [load_and_clean_env_list] always returns, changes nothing, and
    every value it returns is non-empty, has no white space around it and
    holds no comma. *)
Theorem load_and_clean_env_list_clean env_var w :
  exists values,
    load_and_clean_env_list env_var w = (Returns values, w)
    /\ Forall clean_value values.
Proof.
  unfold load_and_clean_env_list. rewrite bind_run. unfold os_getenv.
  eexists. split; [reflexivity|].
  apply Forall_fmap, Forall_forall. intros v Hv.
  apply list_elem_of_In, filter_In in Hv as [Hin Htruthy].
  apply list_elem_of_In in Hin.
  unfold clean_value. simpl. split; [apply truthy_nonempty, Htruthy|].
  split; [apply strip_idempotent|].
  intros Hcomma. apply strip_chars in Hcomma.
  exact (split_parts _ _ _ Hin Hcomma).
Qed.

Lemma split_no_sep sep s :
  sep ∉ Str.chars s -> Str.split sep s = [s].
Proof.
  induction s as [|c s IH]; simpl; intros H; [reflexivity|].
  destruct (Ascii.eqb c sep) eqn:E.
  - apply Ascii.eqb_eq in E. subst. exfalso. apply H. left.
  - rewrite IH; [reflexivity|]. intros Hin. apply H. right. exact Hin.
Qed.

Lemma split_append sep s rest :
  sep ∉ Str.chars s ->
  Str.split sep (s +:+ String sep rest) = s :: Str.split sep rest.
Proof.
  induction s as [|c s IH]; intros H.
  - rewrite append_empty_l. simpl. rewrite Ascii.eqb_refl. reflexivity.
  - rewrite append_cons. simpl.
    destruct (Ascii.eqb c sep) eqn:E.
    + apply Ascii.eqb_eq in E. subst. exfalso. apply H. left.
    + rewrite IH; [reflexivity|]. intros Hin. apply H. right. exact Hin.
Qed.

(** Splitting undoes joining, for parts without the separator. *)
Lemma split_join sep part parts :
  Forall (fun p => sep ∉ Str.chars p) (part :: parts) ->
  Str.split sep (Str.join (String sep EmptyString) (part :: parts)) = part :: parts.
Proof.
  revert part. induction parts as [|p parts IH]; intros part H.
  - simpl Str.join. apply split_no_sep. inversion H; assumption.
  - inversion H as [|? ? Hpart Hrest]; subst.
    change (Str.join (String sep EmptyString) (part :: p :: parts))
      with (part +:+ String sep EmptyString
              +:+ Str.join (String sep EmptyString) (p :: parts)).
    rewrite append_cons, append_empty_l.
    rewrite split_append by exact Hpart. rewrite IH by exact Hrest. reflexivity.
Qed.

Lemma filter_clean_values values :
  Forall clean_value values ->
  List.filter (fun value => Str.truthy (Str.strip value)) values = values.
Proof.
  induction 1 as [|x xs (Hne & Hstrip & _) _ IH]; [reflexivity|].
  simpl. rewrite Hstrip. apply truthy_nonempty in Hne. rewrite Hne, IH. reflexivity.
Qed.

Lemma strip_clean_values values :
  Forall clean_value values -> Str.strip <$> values = values.
Proof.
  induction 1 as [|x xs (_ & Hstrip & _) _ IH]; [reflexivity|].
  rewrite fmap_cons, Hstrip, IH. reflexivity.
Qed.

(** X5. Reading back a list written as comma-separated text: when the
    variable holds clean values joined by commas, [load_and_clean_env_list]
    returns exactly those values. *)
Theorem load_and_clean_env_list_join env_var values w :
  Forall clean_value values ->
  environ w !! env_var = Some (Str.join "," values) ->
  load_and_clean_env_list env_var w = (Returns values, w).
Proof.
  intros Hclean Henv.
  unfold load_and_clean_env_list. rewrite bind_run. unfold os_getenv.
  rewrite Henv. simpl default.
  destruct values as [|v values]; [reflexivity|].
  rewrite split_join
    by (eapply Forall_impl; [exact Hclean|]; intros x (_ & _ & Hx); exact Hx).
  rewrite (filter_clean_values _ Hclean), (strip_clean_values _ Hclean). reflexivity.
Qed.

Lemma load_and_clean_env_list_join_witness :
  load_and_clean_env_list "KEYWORDS"
    (Cases.quiet_env (<["KEYWORDS" := "Nietzsche,Gay science"]> ∅))
  = (Returns ["Nietzsche"; "Gay science"],
     Cases.quiet_env (<["KEYWORDS" := "Nietzsche,Gay science"]> ∅)).
Proof.
  apply (load_and_clean_env_list_join "KEYWORDS" ["Nietzsche"; "Gay science"]).
  - repeat (apply Forall_cons_2;
              [split; [discriminate | split; [reflexivity|]];
               rewrite list_elem_of_In; vm_compute; intuition discriminate|]).
    apply Forall_nil_2.
  - vm_compute. reflexivity.
Defined.

(** X6. A credential set in the process environment is the one returned,
    whatever the [.env] file assigns to the same name; with no
    [MAX_RESULTS_PER_SITE] anywhere the cap is 10. *)
Theorem load_environment_variables_environment_wins py_int w key engine :
  environ w !! "API_KEY" = Some key ->
  environ w !! "SEARCH_ENGINE_ID" = Some engine ->
  (environ w ∪ dotenv w) !! "MAX_RESULTS_PER_SITE" = None ->
  exists keywords filetypes,
    fst (load_environment_variables py_int w)
    = Returns (key, engine, keywords, filetypes, 10).
Proof.
  intros Hkey Hengine Hcap. rewrite load_environment_variables_run. simpl.
  rewrite Hcap.
  rewrite (lookup_union_Some_l _ (dotenv w) _ _ Hkey).
  rewrite (lookup_union_Some_l _ (dotenv w) _ _ Hengine).
  eauto.
Qed.

Lemma load_environment_variables_environment_wins_witness :
  exists keywords filetypes,
    fst (load_environment_variables Cases.no_int Cases.two_keys)
    = Returns ("from-environment", "engine", keywords, filetypes, 10).
Proof.
  apply (load_environment_variables_environment_wins Cases.no_int Cases.two_keys).
  - vm_compute. reflexivity.
  - vm_compute. reflexivity.
  - vm_compute. reflexivity.
Defined.

(** X7. A [MAX_RESULTS_PER_SITE] that [int] rejects makes the loader raise
    [RuntimeError] with the message of the rejection, whether or not the
    credentials are set. *)
Theorem load_environment_variables_bad_cap py_int w text e :
  (environ w ∪ dotenv w) !! "MAX_RESULTS_PER_SITE" = Some text ->
  py_int text = Raises e ->
  exn_cls e <> ImportError ->
  fst (load_environment_variables py_int w)
  = Raises (Exn RuntimeError ("Error loading environment variables: " +:+ exn_msg e)).
Proof.
  intros Hcap Hint Hcls. rewrite load_environment_variables_run. simpl.
  rewrite Hcap, Hint. destruct (exn_cls e); congruence.
Qed.

Lemma load_environment_variables_bad_cap_witness :
  fst (load_environment_variables Cases.no_int
         (Cases.quiet_env (<["MAX_RESULTS_PER_SITE" := "ten"]> ∅)))
  = Raises (Exn RuntimeError
              ("Error loading environment variables: "
                 +:+ "invalid literal for int() with base 10: 'ten'")).
Proof.
  apply (load_environment_variables_bad_cap Cases.no_int
           (Cases.quiet_env (<["MAX_RESULTS_PER_SITE" := "ten"]> ∅)) "ten"
           (Exn ValueError "invalid literal for int() with base 10: 'ten'")).
  - vm_compute. reflexivity.
  - reflexivity.
  - discriminate.
Defined.

(** X8. With the cap unset or accepted by [int], a missing API key or
    engine id makes the loader raise the [ValueError] that asks for the
    settings. *)
Theorem load_environment_variables_missing_credentials_error py_int w :
  (environ w ∪ dotenv w) !! "API_KEY" = None
  \/ (environ w ∪ dotenv w) !! "SEARCH_ENGINE_ID" = None ->
  (environ w ∪ dotenv w) !! "MAX_RESULTS_PER_SITE" = None
  \/ (exists text cap,
         (environ w ∪ dotenv w) !! "MAX_RESULTS_PER_SITE" = Some text
         /\ py_int text = Returns cap) ->
  fst (load_environment_variables py_int w)
  = Raises (Exn ValueError
              "Please set GOOGLE_API_KEY, GOOGLE_CSE_ID, and SEARCH_KEYWORDS in your .env file.").
Proof.
  intros Hmissing Hcap. rewrite load_environment_variables_run. simpl.
  assert (Hok : exists cap,
             match (environ w ∪ dotenv w) !! "MAX_RESULTS_PER_SITE" with
             | Some text => py_int text
             | None => Returns 10
             end = Returns cap).
  { destruct Hcap as [-> | (text & cap & -> & ->)]; eauto. }
  destruct Hok as [cap ->].
  destruct Hmissing as [-> | ->]; [reflexivity|].
  destruct (_ !! "API_KEY"); reflexivity.
Qed.

Lemma load_environment_variables_missing_credentials_error_witness :
  fst (load_environment_variables Cases.no_int
         (Cases.quiet_env (<["API_KEY" := "key"]> ∅)))
  = Raises (Exn ValueError
              "Please set GOOGLE_API_KEY, GOOGLE_CSE_ID, and SEARCH_KEYWORDS in your .env file.").
Proof.
  apply (load_environment_variables_missing_credentials_error Cases.no_int
           (Cases.quiet_env (<["API_KEY" := "key"]> ∅))).
  - right. vm_compute. reflexivity.
  - left. vm_compute. reflexivity.
Defined.

(** X9. Whatever its outcome, the loader changes the process environment
    and nothing else: the assignments of the [.env] file are added, no
    variable already set changes, no request is sent, nothing is printed
    and no file is written. *)
Theorem load_environment_variables_effects py_int w :
  let w' := snd (load_environment_variables py_int w) in
  environ w' = environ w ∪ dotenv w
  /\ (forall name value, environ w !! name = Some value -> environ w' !! name = Some value)
  /\ (forall name value,
        environ w !! name = None -> dotenv w !! name = Some value ->
        environ w' !! name = Some value)
  /\ sent w' = sent w /\ console w' = console w /\ fs w' = fs w /\ slept w' = slept w.
Proof.
  rewrite load_environment_variables_run. simpl. split; [reflexivity|].
  split; [intros name value H; apply lookup_union_Some_l; exact H|].
  split; [|repeat split].
  intros name value Hnone H. rewrite lookup_union_r by exact Hnone. exact H.
Qed.

(** ** More on the site list *)

(** What [get_ebook_sites] does, in one equation. *)
Lemma get_ebook_sites_run file w :
  get_ebook_sites file w =
  match fs w !! file with
  | None =>
      (Raises (Exn FileNotFoundError
                 ("Please create a file named '" +:+ file +:+ "' with ebook sites.")), w)
  | Some text =>
      let sites :=
        Str.strip <$>
          List.filter (fun line => re_match url_pattern (Str.strip line))
            (file_lines text) in
      match sites with
      | [] => (Raises (Exn ValueError "No ebook sites found in the file."), w)
      | _ =>
          (Returns sites,
           set_console
             (console w ++ ["Found " +:+ Str.of_Z (len sites) +:+ " ebook sites."]) w)
      end
  end.
Proof.
  unfold get_ebook_sites. rewrite bind_run. unfold os_path_exists, read_lines.
  destruct (fs w !! file) as [text|] eqn:Hfile.
  - rewrite bool_decide_eq_true_2 by eauto. simpl. rewrite bind_run, Hfile.
    destruct (Str.strip <$> List.filter _ (file_lines text)); reflexivity.
  - rewrite bool_decide_eq_false_2 by (intros [? ?]; discriminate). reflexivity.
Qed.

Lemma kept_lines_hostname_like lines :
  Forall hostname_like
    (Str.strip <$> List.filter (fun line => re_match url_pattern (Str.strip line)) lines).
Proof.
  apply Forall_fmap, Forall_forall. intros line Hline.
  apply list_elem_of_In, filter_In in Hline as [_ Hmatch].
  apply re_match_stripped. exact Hmatch.
Qed.

Lemma get_ebook_sites_valid_sites file w sites w' :
  get_ebook_sites file w = (Returns sites, w') ->
  sites <> []
  /\ Forall hostname_like sites
  /\ w' = set_console
            (console w ++ ["Found " +:+ Str.of_Z (len sites) +:+ " ebook sites."]) w.
Proof.
  rewrite get_ebook_sites_run.
  destruct (fs w !! file) as [text|]; [|discriminate].
  pose proof (kept_lines_hostname_like (file_lines text)) as Hvalid.
  simpl. destruct (Str.strip <$> List.filter _ (file_lines text)) as [|s l];
    [discriminate|].
  intros [= <- <-]. repeat split; [discriminate | exact Hvalid].
Qed.

(** X10. A list that [get_ebook_sites] returns is never empty and every
    entry is host-name-like; loading prints one line and touches neither
    the files nor the network. *)
Theorem get_ebook_sites_returns_valid file w sites w' :
  get_ebook_sites file w = (Returns sites, w') ->
  sites <> []
  /\ Forall hostname_like sites
  /\ console w' = console w ++ ["Found " +:+ Str.of_Z (len sites) +:+ " ebook sites."]
  /\ fs w' = fs w /\ sent w' = sent w.
Proof.
  intros H. apply get_ebook_sites_valid_sites in H as (Hne & Hvalid & ->).
  repeat split; assumption.
Qed.

Lemma get_ebook_sites_returns_valid_witness :
  ["example.com"] <> []
  /\ Forall hostname_like ["example.com"]
  /\ console (snd (get_ebook_sites "ebook_sites.txt" Sample.padded_site_file))
     = console Sample.padded_site_file
         ++ ["Found " +:+ Str.of_Z (len ["example.com"]) +:+ " ebook sites."]
  /\ fs (snd (get_ebook_sites "ebook_sites.txt" Sample.padded_site_file))
     = fs Sample.padded_site_file
  /\ sent (snd (get_ebook_sites "ebook_sites.txt" Sample.padded_site_file))
     = sent Sample.padded_site_file.
Proof.
  apply (get_ebook_sites_returns_valid "ebook_sites.txt" Sample.padded_site_file).
  vm_compute. reflexivity.
Defined.

(** X11. Constructing a searcher reads [ebook_sites.txt]: without the
    file no searcher is built, [FileNotFoundError] is raised; a searcher
    that is built holds the credentials given, the endpoint of the API,
    and a non-empty list of host-name-like sites. *)
Theorem EbookSearcher_init_valid key engine_id w :
  (fs w !! "ebook_sites.txt" = None ->
   exists msg,
     EbookSearcher_init key engine_id w = (Raises (Exn FileNotFoundError msg), w))
  /\ (forall self w',
        EbookSearcher_init key engine_id w = (Returns self, w') ->
        api_key self = key
        /\ search_engine_id self = engine_id
        /\ base_url self = "https://www.googleapis.com/customsearch/v1"
        /\ ebook_sites self <> []
        /\ Forall hostname_like (ebook_sites self)).
Proof.
  unfold EbookSearcher_init. rewrite bind_run. split.
  - intros Hfile. rewrite get_ebook_sites_run, Hfile. eauto.
  - intros self w'.
    destruct (get_ebook_sites "ebook_sites.txt" w) as [[sites|e] w1] eqn:Hload;
      [|discriminate].
    apply get_ebook_sites_valid_sites in Hload as (Hne & Hvalid & _).
    intros [= <- <-]. simpl. repeat split; assumption.
Qed.

(** No character of a host name is white space. *)
Lemma host_char_not_space c : host_char c = true -> Str.isspace c = false.
Proof.
  destruct c as [[] [] [] [] [] [] [] []]; vm_compute; intros H;
    first [reflexivity | discriminate H].
Qed.

Lemma hostname_like_chars s :
  hostname_like s -> Forall (fun c => Str.isspace c = false) (Str.chars s).
Proof.
  intros (name & suffix & -> & _ & Hname & _ & Hsuffix).
  rewrite !chars_append. apply Forall_app. split; [|apply Forall_app; split].
  - eapply Forall_impl; [exact Hname|]. intros c Hc.
    apply host_char_not_space, host_char_name_char, Hc.
  - repeat constructor.
  - eapply Forall_impl; [exact Hsuffix|]. intros c Hc.
    apply host_char_not_space, host_char_name_char. left. exact Hc.
Qed.

Lemma hostname_like_nonempty s : hostname_like s -> s <> EmptyString.
Proof.
  intros (name & suffix & -> & Hne & _) H. apply append_is_empty in H as [H _].
  congruence.
Qed.

Lemma rstrip_no_space s : no_space s -> Str.rstrip s = s.
Proof.
  unfold no_space. induction s as [|c s IH]; simpl; intros H; [reflexivity|].
  inversion H as [|? ? Hc Hs]; subst. rewrite (IH Hs).
  destruct s; [rewrite Hc|]; reflexivity.
Qed.

Lemma strip_no_space s : no_space s -> Str.strip s = s.
Proof.
  intros H. unfold Str.strip. rewrite lstrip_id; [apply rstrip_no_space, H|].
  destruct s; simpl; [exact I|]. inversion H; assumption.
Qed.

Lemma rstrip_newline s : no_space s -> Str.rstrip (s +:+ String LF EmptyString) = s.
Proof.
  unfold no_space. induction s as [|c s IH]; intros H; [reflexivity|].
  inversion H as [|? ? Hc Hs]; subst. rewrite append_cons.
  change (Str.rstrip (String c (s +:+ String LF EmptyString)))
    with (match Str.rstrip (s +:+ String LF EmptyString) with
          | EmptyString => if Str.isspace c then EmptyString else String c EmptyString
          | r => String c r
          end).
  rewrite (IH Hs). destruct s; [rewrite Hc|]; reflexivity.
Qed.

Lemma strip_newline s : no_space s -> Str.strip (s +:+ String LF EmptyString) = s.
Proof.
  intros H. unfold Str.strip. destruct s as [|c s]; [reflexivity|].
  rewrite lstrip_id; [apply rstrip_newline, H|].
  rewrite append_cons. simpl. inversion H; assumption.
Qed.

Lemma no_space_not_newline c :
  Str.isspace c = false -> Ascii.eqb c LF = false /\ Ascii.eqb c CR = false.
Proof.
  intros H. split.
  - destruct (Ascii.eqb c LF) eqn:E; [|reflexivity].
    apply Ascii.eqb_eq in E. subst. discriminate H.
  - destruct (Ascii.eqb c CR) eqn:E; [|reflexivity].
    apply Ascii.eqb_eq in E. subst. discriminate H.
Qed.

Lemma site_file_cons site site' sites :
  site_file (site :: site' :: sites)
  = site +:+ String LF (site_file (site' :: sites)).
Proof.
  unfold site_file.
  change (Str.join (String LF EmptyString) (site :: site' :: sites))
    with (site +:+ String LF EmptyString
            +:+ Str.join (String LF EmptyString) (site' :: sites)).
  rewrite append_cons, append_empty_l. reflexivity.
Qed.

Lemma translate_newlines_line s rest :
  no_space s ->
  translate_newlines (s +:+ rest) = s +:+ translate_newlines rest.
Proof.
  unfold no_space. induction s as [|c s IH]; intros H; [reflexivity|].
  inversion H as [|? ? Hc Hs]; subst. rewrite !append_cons.
  destruct (no_space_not_newline _ Hc) as [_ Hcr].
  simpl. rewrite Hcr, (IH Hs). reflexivity.
Qed.

Lemma translate_newlines_site_file sites :
  Forall no_space sites -> translate_newlines (site_file sites) = site_file sites.
Proof.
  induction 1 as [|site sites Hsite Hsites IH]; [reflexivity|].
  destruct sites as [|site' sites].
  - unfold site_file. simpl Str.join.
    pose proof (translate_newlines_line site EmptyString Hsite) as H.
    change (translate_newlines EmptyString) with EmptyString in H.
    rewrite !append_empty_r in H. exact H.
  - rewrite site_file_cons, translate_newlines_line by exact Hsite.
    change (translate_newlines (String LF (site_file (site' :: sites))))
      with (String LF (translate_newlines (site_file (site' :: sites)))).
    rewrite IH. reflexivity.
Qed.

Lemma lines_keepends_line s rest :
  no_space s ->
  lines_keepends (s +:+ String LF rest)
  = (s +:+ String LF EmptyString) :: lines_keepends rest.
Proof.
  unfold no_space. induction s as [|c s IH]; intros H.
  - rewrite !append_empty_l. reflexivity.
  - inversion H as [|? ? Hc Hs]; subst. rewrite !append_cons.
    destruct (no_space_not_newline _ Hc) as [Hlf _].
    simpl. rewrite Hlf, (IH Hs). reflexivity.
Qed.

Lemma lines_keepends_last s :
  no_space s -> s <> EmptyString -> lines_keepends s = [s].
Proof.
  unfold no_space. induction s as [|c s IH]; intros H Hne; [congruence|].
  inversion H as [|? ? Hc Hs]; subst.
  destruct (no_space_not_newline _ Hc) as [Hlf _].
  simpl. rewrite Hlf. destruct s as [|d s]; [reflexivity|].
  rewrite (IH Hs) by discriminate. reflexivity.
Qed.

Lemma kept_site_file sites :
  sites <> [] ->
  Forall hostname_like sites ->
  Str.strip <$>
    List.filter (fun line => re_match url_pattern (Str.strip line))
      (lines_keepends (site_file sites))
  = sites.
Proof.
  intros Hne Hvalid. induction Hvalid as [|site sites Hsite Hsites IH]; [congruence|].
  pose proof (hostname_like_chars _ Hsite) as Hplain.
  assert (Hmatch : re_match url_pattern site = true).
  { rewrite <- (strip_no_space _ Hplain). apply re_match_stripped.
    rewrite strip_no_space; assumption. }
  destruct sites as [|site' sites].
  - unfold site_file. simpl Str.join.
    rewrite (lines_keepends_last _ Hplain (hostname_like_nonempty _ Hsite)).
    simpl List.filter. rewrite (strip_no_space _ Hplain), Hmatch.
    simpl. rewrite (strip_no_space _ Hplain). reflexivity.
  - rewrite site_file_cons, (lines_keepends_line _ _ Hplain).
    simpl List.filter. rewrite (strip_newline _ Hplain), Hmatch.
    rewrite fmap_cons, (strip_newline _ Hplain), IH by discriminate. reflexivity.
Qed.

(** X12. Loading reads back what was listed: from a file that holds
    host-name-like sites, one per line, [get_ebook_sites] returns exactly
    those sites, in order. *)
Theorem get_ebook_sites_round_trip file w sites :
  sites <> [] ->
  Forall hostname_like sites ->
  fs w !! file = Some (site_file sites) ->
  fst (get_ebook_sites file w) = Returns sites.
Proof.
  intros Hne Hvalid Hfile. rewrite get_ebook_sites_run, Hfile. unfold file_lines.
  rewrite translate_newlines_site_file
    by (eapply Forall_impl; [exact Hvalid|]; apply hostname_like_chars).
  simpl. rewrite (kept_site_file _ Hne Hvalid).
  destruct sites; [congruence | reflexivity].
Qed.

Lemma hostname_like_accepts s : accepts url_pattern s = true -> hostname_like s.
Proof. intros H. apply url_pattern_hostname_like, accepts_lang, H. Qed.

Lemma get_ebook_sites_round_trip_witness :
  fst (get_ebook_sites "ebook_sites.txt"
         (set_fs {["ebook_sites.txt" := site_file ["example.com"; "my-books.co.uk"] ]}
            Sample.generous))
  = Returns ["example.com"; "my-books.co.uk"].
Proof.
  apply (get_ebook_sites_round_trip "ebook_sites.txt" _ ["example.com"; "my-books.co.uk"]).
  - discriminate.
  - repeat (apply Forall_cons_2; [apply hostname_like_accepts; reflexivity|]).
    apply Forall_nil_2.
  - vm_compute. reflexivity.
Defined.

(** ** More on the pagination *)

Lemma make_result_returns item r w w' :
  make_result item w = (Returns r, w') ->
  exists d, item = PDict d /\ r = result_of d /\ w' = w.
Proof.
  destruct item as [| | | | | |d]; try discriminate.
  intros [= <- <-]. eauto.
Qed.

Lemma for_each_make_result_returns items new w w' :
  for_each make_result items w = (Returns new, w') ->
  length new = length items
  /\ Forall (fun r => dict_keys r = result_keys) new.
Proof.
  revert new w'. induction items as [|item items IH]; intros new w'; simpl.
  - intros [= <- <-]. split; [reflexivity | constructor].
  - rewrite bind_run.
    destruct (make_result item w) as [[r|e] w1] eqn:Hitem; [|discriminate].
    apply make_result_returns in Hitem as (d & -> & -> & ->).
    cbv beta iota. rewrite bind_run.
    destruct (for_each make_result items w) as [[rs|e] w2] eqn:Hrest; [|discriminate].
    destruct (IH _ _ eq_refl) as [Hlen Hkeys].
    cbv beta iota. intros [= <- <-]. simpl. split; [congruence|].
    constructor; [reflexivity | exact Hkeys].
Qed.

Lemma for_each_make_result_dicts (ds : list pydict) w :
  for_each make_result (PDict <$> ds) w = (Returns (result_of <$> ds), w).
Proof.
  induction ds as [|d ds IH]; [reflexivity|].
  rewrite !fmap_cons.
  change (for_each make_result (PDict d :: (PDict <$> ds)) w)
    with (match for_each make_result (PDict <$> ds) w with
          | (Returns ys, w') => (Returns (result_of d :: ys), w')
          | (Raises e, w') => (Raises e, w')
          end).
  rewrite IH. reflexivity.
Qed.

(** What a turn that goes on adds to the results: one entry per element
    of [items], each with the five keys. *)
Lemma search_page_next self query max_results results start_index w results' w' :
  search_page self query max_results results start_index w = (Returns (Next results'), w') ->
  exists resp data items elements new,
    api w (sent w ++ [page_request self query max_results results start_index])
    = HttpReply resp
    /\ json_body resp = Returns data
    /\ py_getitem data "items" = Returns items
    /\ py_iter items = Returns elements
    /\ results' = results ++ new
    /\ length new = length elements
    /\ Forall (fun r => dict_keys r = result_keys) new.
Proof.
  unfold search_page. rewrite bind_run. unfold requests_get.
  destruct (api w _) as [e|resp]; [discriminate|].
  destruct (negb _); [discriminate|].
  rewrite bind_run, lift_run.
  destruct (json_body resp) as [data|e] eqn:Hbody; [|discriminate].
  rewrite bind_run, lift_run.
  destruct (py_contains "items" data) as [[|]|e]; simpl; try discriminate.
  rewrite bind_run, lift_run.
  destruct (py_getitem data "items") as [items|e] eqn:Hitems; [|discriminate].
  rewrite bind_run, lift_run.
  destruct (py_iter items) as [elements|e] eqn:Helements; [|discriminate].
  rewrite bind_run.
  destruct (for_each make_result elements _) as [[new|e] w1] eqn:Hnew; [|discriminate].
  apply for_each_make_result_returns in Hnew as [Hlen Hkeys].
  intros [= <- <-]. exists resp, data, items, elements, new. repeat split; assumption.
Qed.

Lemma slice_to_sublist {A} (l : list A) (n : Z) : slice_to l n `prefix_of` l.
Proof. unfold slice_to. destruct (0 <=? n); apply prefix_take. Qed.

(** The results the loop returns all have the five keys, when the ones
    it starts from do. *)
Lemma search_loop_result_keys fuel self query max_results results start_index w l w' :
  Forall (fun r => dict_keys r = result_keys) results ->
  search_loop fuel self query max_results results start_index w = (Returns l, w') ->
  Forall (fun r => dict_keys r = result_keys) l.
Proof.
  revert results start_index w.
  assert (Hslice : forall results : list pydict,
             Forall (fun r => dict_keys r = result_keys) results ->
             Forall (fun r => dict_keys r = result_keys) (slice_to results max_results)).
  { intros results H. destruct (slice_to_sublist results max_results) as [k Hk].
    rewrite Hk in H. apply Forall_app in H as [H _]. exact H. }
  induction fuel as [|fuel IH]; intros results start_index w Hkeys; simpl;
    destruct ((len results <? max_results) && (start_index <=? 91));
    try (intros [= <- <-]; auto; fail).
  rewrite bind_run.
  destruct (search_page self query max_results results start_index w)
    as [[[|results']|e] w1] eqn:Hpage; try (intros [= <- <-]; auto; fail).
  apply search_page_next in Hpage as (? & ? & ? & ? & new & _ & _ & _ & _ & -> & _ & Hnew).
  apply IH. apply Forall_app. split; assumption.
Qed.

(** X13. Every result [_perform_search] returns has exactly the keys
    title, link, snippet, displayLink and formattedUrl, in this order,
    whatever the items of the API held. *)
Theorem perform_search_result_keys self query max_results w l w' :
  _perform_search self query max_results w = (Returns l, w') ->
  Forall (fun r => dict_keys r = ["title"; "link"; "snippet"; "displayLink"; "formattedUrl"]) l.
Proof. apply search_loop_result_keys. constructor. Qed.

Lemma perform_search_result_keys_witness :
  Forall (fun r => dict_keys r = ["title"; "link"; "snippet"; "displayLink"; "formattedUrl"])
    (match fst (_perform_search Sample.searcher "q" 2 Sample.generous) with
     | Returns l => l
     | Raises _ => []
     end).
Proof.
  apply (perform_search_result_keys Sample.searcher "q" 2 Sample.generous _
           (snd (_perform_search Sample.searcher "q" 2 Sample.generous))).
  vm_compute. reflexivity.
Defined.

(** The requests of the loop carry the query and the attributes of the
    searcher. *)
Lemma search_loop_request_fields fuel self query max_results results start_index w :
  exists new,
    sent (snd (search_loop fuel self query max_results results start_index w))
    = sent w ++ new
    /\ Forall (fun r => req_url r = base_url self /\ req_key r = api_key self
                        /\ req_cx r = search_engine_id self /\ req_q r = query) new.
Proof.
  revert results start_index w.
  induction fuel as [|fuel IH]; intros results start_index w; simpl;
    destruct ((len results <? max_results) && (start_index <=? 91));
    try (exists []; simpl; rewrite app_nil_r; split; [reflexivity | constructor]).
  rewrite bind_run.
  pose proof (search_page_sent self query max_results results start_index w) as Hsent.
  destruct (search_page self query max_results results start_index w)
    as [[[|results']|e] w1]; simpl in Hsent;
    try (eexists; split; [exact Hsent | repeat constructor]).
  destruct (IH results' (start_index + 10) w1) as (new & Hnew & Hall).
  eexists. split; [rewrite Hnew, Hsent, <- app_assoc; reflexivity|].
  constructor; [repeat split | exact Hall].
Qed.

(** X14. One call of [_perform_search] sends at most ten requests, each
    to the endpoint of the searcher, with its key and engine id and with
    the query given; for a positive [max_results] the first of them asks
    for offset 1 and [min(10, max_results)] items. *)
Theorem perform_search_request_budget self query max_results w :
  exists new,
    sent (snd (_perform_search self query max_results w)) = sent w ++ new
    /\ (length new <= 10)%nat
    /\ Forall (fun r => req_url r = base_url self /\ req_key r = api_key self
                        /\ req_cx r = search_engine_id self /\ req_q r = query) new
    /\ (0 < max_results ->
        exists more,
          new = {| req_url := base_url self; req_key := api_key self;
                   req_cx := search_engine_id self; req_q := query;
                   req_start := 1; req_num := Z.min 10 max_results |} :: more).
Proof.
  unfold _perform_search.
  destruct (search_loop_requests (turns_from 1) self query max_results [] 1 w)
    as (new & Hsent & Hoffsets).
  destruct (search_loop_request_fields (turns_from 1) self query max_results [] 1 w)
    as (new' & Hsent' & Hfields).
  assert (new' = new) by (apply (app_inv_head (sent w)); congruence). subst new'.
  exists new. split; [exact Hsent|]. split; [|split; [exact Hfields|]].
  - destruct (le_lt_dec (length new) 10) as [Hle|Hgt]; [exact Hle|].
    destruct (lookup_lt_is_Some_2 new 10 Hgt) as [r Hr].
    destruct (Hoffsets _ _ Hr) as (H1 & H2 & _). lia.
  - intros Hmax.
    pose proof (perform_search_loop_unfold self query max_results [] 1 w) as Hun.
    cbv beta zeta in Hun.
    replace (len (@nil pydict) <? max_results) with true in Hun
      by (symmetry; apply Z.ltb_lt; exact Hmax).
    change (true && (1 <=? 91)) with true in Hun. cbv iota in Hun.
    pose proof (search_page_sent self query max_results [] 1 w) as Hpage.
    assert (Hext : exists more,
               sent (snd (search_loop (turns_from 1) self query max_results [] 1 w))
               = sent w ++ page_request self query max_results [] 1 :: more).
    { rewrite Hun.
      destruct (search_page self query max_results [] 1 w) as [[[|results']|e] w1];
        simpl in Hpage; try (exists []; exact Hpage).
      destruct (search_loop_requests (turns_from (1 + 10)) self query max_results
                  results' (1 + 10) w1) as (more & Hmore & _).
      exists more. rewrite Hmore, Hpage, <- app_assoc. reflexivity. }
    destruct Hext as [more Hmore]. exists more.
    apply (app_inv_head (sent w)). rewrite <- Hsent, Hmore.
    unfold page_request, len. simpl. rewrite Z.sub_0_r. reflexivity.
Qed.

(** *** What the loop leaves alone *)

Lemma search_page_frame self query max_results results start_index w :
  let w' := snd (search_page self query max_results results start_index w) in
  fs w' = fs w /\ environ w' = environ w /\ dotenv w' = dotenv w /\ slept w' = slept w.
Proof.
  unfold search_page. rewrite bind_run. unfold requests_get.
  destruct (api w _) as [e|resp]; [repeat split|].
  destruct (negb _); [repeat split|].
  rewrite bind_run, lift_run.
  destruct (json_body resp) as [data|e]; [|repeat split].
  rewrite bind_run, lift_run.
  destruct (py_contains "items" data) as [[|]|e]; simpl; try (repeat split; fail).
  rewrite bind_run, lift_run.
  destruct (py_getitem data "items") as [items|e]; [|repeat split].
  rewrite bind_run, lift_run.
  destruct (py_iter items) as [elements|e]; [|repeat split].
  rewrite bind_run.
  match goal with
  | |- context [for_each make_result elements ?w0] =>
      pose proof (for_each_make_result_world elements w0) as Hw;
      destruct (for_each make_result elements w0) as [[new|e] w1]
  end; simpl in Hw; subst w1; repeat split.
Qed.

Lemma search_loop_frame fuel self query max_results results start_index w :
  let w' := snd (search_loop fuel self query max_results results start_index w) in
  fs w' = fs w /\ environ w' = environ w /\ dotenv w' = dotenv w /\ slept w' = slept w
  /\ api w' = api w.
Proof.
  revert results start_index w.
  induction fuel as [|fuel IH]; intros results start_index w; simpl;
    destruct ((len results <? max_results) && (start_index <=? 91));
    try (repeat split; fail).
  rewrite bind_run.
  pose proof (search_page_frame self query max_results results start_index w) as Hpage.
  pose proof (search_page_api self query max_results results start_index w) as Hapi.
  destruct (search_page self query max_results results start_index w)
    as [[[|results']|e] w1]; simpl in Hpage, Hapi;
    try (destruct Hpage as (? & ? & ? & ?); repeat split; assumption).
  destruct Hpage as (H1 & H2 & H3 & H4).
  destruct (IH results' (start_index + 10) w1) as (I1 & I2 & I3 & I4 & I5).
  simpl. repeat split; congruence.
Qed.

(** X15. [_perform_search] only talks and prints: it writes no file,
    changes no environment variable and never sleeps, whatever the API
    answers and whether it returns or raises. *)
Theorem perform_search_frame self query max_results w :
  let w' := snd (_perform_search self query max_results w) in
  fs w' = fs w /\ environ w' = environ w /\ dotenv w' = dotenv w /\ slept w' = slept w
  /\ console w `prefix_of` console w'.
Proof.
  unfold _perform_search.
  destruct (search_loop_frame (turns_from 1) self query max_results [] 1 w)
    as (H1 & H2 & H3 & H4 & _).
  repeat split; try assumption. apply search_loop_console.
Qed.

Lemma slice_to_len_le {A} (l : list A) (n : Z) : len (slice_to l n) <= len l.
Proof.
  destruct (slice_to_sublist l n) as [k Hk]. unfold len.
  rewrite Hk at 2. rewrite length_app. lia.
Qed.

(** With an API that obeys [num], the results collected when the loop is
    at offset [start_index] number at most [start_index - 1]. *)
Lemma search_loop_obeyed fuel self query max_results results start_index w l w' :
  obeys_num (api w) ->
  len results <= start_index - 1 ->
  start_index <= 101 ->
  search_loop fuel self query max_results results start_index w = (Returns l, w') ->
  len l <= 100.
Proof.
  revert results start_index w.
  induction fuel as [|fuel IH]; intros results start_index w Hobeys Hlen Hstart; simpl.
  - destruct (_ && _); intros [= <- <-];
      pose proof (slice_to_len_le results max_results); lia.
  - destruct (len results <? max_results) eqn:Hlt; simpl.
    2: { intros [= <- <-]. pose proof (slice_to_len_le results max_results). lia. }
    destruct (start_index <=? 91) eqn:Hle; simpl.
    2: { intros [= <- <-]. pose proof (slice_to_len_le results max_results). lia. }
    apply Z.ltb_lt in Hlt. apply Z.leb_le in Hle.
    rewrite bind_run.
    pose proof (search_page_api self query max_results results start_index w) as Hapi.
    destruct (search_page self query max_results results start_index w)
      as [[[|results']|e] w1] eqn:Hpage; simpl in Hapi.
    + intros [= <- <-]. pose proof (slice_to_len_le results max_results). lia.
    + apply search_page_next in Hpage
        as (resp & data & items & elements & new & Hreply & Hbody & Hitems & Hiter
            & -> & Hnew & _).
      assert (Hnum : 1 <= req_num (page_request self query max_results results start_index))
        by (simpl; lia).
      pose proof (Hobeys _ _ _ _ _ _ Hnum Hreply Hbody Hitems Hiter) as Hsize.
      simpl in Hsize.
      apply IH; [rewrite Hapi; exact Hobeys | | lia].
      unfold len in *. rewrite length_app. lia.
    + discriminate.
Qed.

(** X16. When the API never answers with more items than a request asks
    for, [_perform_search] returns at most 100 results, however large
    [max_results] is. *)
Theorem perform_search_at_most_100 self query max_results w l w' :
  obeys_num (api w) ->
  _perform_search self query max_results w = (Returns l, w') ->
  len l <= 100.
Proof.
  intros Hobeys. apply search_loop_obeyed; [exact Hobeys | unfold len; simpl; lia | lia].
Qed.

Lemma obedient_obeys : obeys_num (api Cases.obedient).
Proof.
  intros history r resp data items elements Hnum Hreply Hbody Hitems Hiter.
  simpl in Hreply. rewrite last_snoc in Hreply.
  injection Hreply as <-. simpl in Hbody. injection Hbody as <-.
  simpl in Hitems. injection Hitems as <-. simpl in Hiter. injection Hiter as <-.
  unfold len. rewrite length_take. lia.
Qed.

Lemma perform_search_at_most_100_witness :
  len (match fst (_perform_search Sample.searcher "q" 250 Cases.obedient) with
       | Returns l => l
       | Raises _ => []
       end) <= 100.
Proof.
  apply (perform_search_at_most_100 Sample.searcher "q" 250 Cases.obedient _
           (snd (_perform_search Sample.searcher "q" 250 Cases.obedient))).
  - exact obedient_obeys.
  - vm_compute. reflexivity.
Defined.

(** A sample run against the obedient API: 250 results wanted, ten
    requests sent, 100 results returned. *)
Example perform_search_obedient_run :
  let run := _perform_search Sample.searcher "q" 250 Cases.obedient in
  length (sent (snd run)) = 10%nat
  /\ match fst run with Returns l => len l | Raises _ => -1 end = 100.
Proof. split; vm_compute; reflexivity. Qed.

(** An answer with status 200 and no [items] ends the loop without a
    word: the results collected so far are returned. *)
Lemma search_loop_no_items self query max_results results start_index w resp d :
  len results < max_results ->
  start_index <= 91 ->
  api w (sent w ++ [page_request self query max_results results start_index])
  = HttpReply resp ->
  status_code resp = 200 ->
  json_body resp = Returns (PDict d) ->
  dict_get "items" d = None ->
  search_loop (turns_from start_index) self query max_results results start_index w
  = (Returns results,
     set_sent (sent w ++ [page_request self query max_results results start_index]) w).
Proof.
  intros Hlen Hstart Hreply Hstatus Hbody Hitems.
  pose proof (perform_search_loop_unfold self query max_results results start_index w) as Hun.
  cbv beta zeta in Hun. rewrite Hun. clear Hun.
  apply Z.ltb_lt in Hlen as Hlen'. apply Z.leb_le in Hstart as Hstart'.
  rewrite Hlen', Hstart'. simpl.
  unfold search_page. rewrite bind_run. unfold requests_get. rewrite Hreply.
  rewrite Hstatus. simpl. rewrite bind_run, lift_run, Hbody.
  rewrite bind_run, lift_run. simpl py_contains. cbv beta iota.
  rewrite bool_decide_eq_false_2.
  2: { intros Hin. apply dict_get_keys in Hin as [v Hv]. congruence. }
  simpl.
  unfold slice_to, len in *.
  destruct (0 <=? max_results) eqn:E; [|apply Z.leb_gt in E; lia].
  rewrite take_ge by lia. reflexivity.
Qed.

(** X17. When a request of the pagination gets a 200 answer without
    [items], the pagination ends: [_perform_search] returns the results
    of the turns before, prints nothing more and sends nothing more. *)
Theorem perform_search_stops_without_items
    self query max_results w n results start_index w1 resp d :
  let request := page_request self query max_results results start_index in
  after_turns n self query max_results [] 1 w = Some (results, start_index, w1) ->
  len results < max_results ->
  start_index <= 91 ->
  api w1 (sent w1 ++ [request]) = HttpReply resp ->
  status_code resp = 200 ->
  json_body resp = Returns (PDict d) ->
  dict_get "items" d = None ->
  _perform_search self query max_results w
  = (Returns results, set_sent (sent w1 ++ [request]) w1).
Proof.
  intros request Hturns Hlen Hstart Hreply Hstatus Hbody Hitems.
  unfold _perform_search. rewrite (after_turns_loop _ _ _ _ _ _ _ _ _ _ Hturns).
  eapply search_loop_no_items; eassumption.
Qed.

Lemma perform_search_stops_without_items_witness :
  let first :=
    [("title", PStr "one"); ("link", PStr "https://a.com/one");
     ("snippet", PStr EmptyString); ("displayLink", PStr EmptyString);
     ("formattedUrl", PStr EmptyString)] in
  let w1 := snd (search_page Sample.searcher "q" 5 [] 1 Cases.runs_dry) in
  _perform_search Sample.searcher "q" 5 Cases.runs_dry
  = (Returns [first],
     set_sent (sent w1 ++ [page_request Sample.searcher "q" 5 [first] 11]) w1).
Proof.
  intros first w1.
  apply (perform_search_stops_without_items Sample.searcher "q" 5 Cases.runs_dry
           1 [first] 11 w1
           (Response 200 (Returns (PDict [("kind", PStr "search")])))
           [("kind", PStr "search")]).
  - vm_compute. reflexivity.
  - vm_compute. reflexivity.
  - vm_compute. discriminate.
  - vm_compute. reflexivity.
  - reflexivity.
  - reflexivity.
  - reflexivity.
Defined.

(** X18. When the first answer holds at least [max_results] items, one
    request is all [_perform_search] sends, and it returns the results of
    the first [max_results] items, each field taken from its item or
    empty. *)
Theorem perform_search_single_page self query max_results w resp body ds :
  let request := page_request self query max_results [] 1 in
  0 < max_results ->
  api w (sent w ++ [request]) = HttpReply resp ->
  status_code resp = 200 ->
  json_body resp = Returns (PDict body) ->
  dict_get "items" body = Some (PList (PDict <$> ds)) ->
  max_results <= len ds ->
  _perform_search self query max_results w
  = (Returns (take (Z.to_nat max_results) (result_of <$> ds)),
     set_sent (sent w ++ [request]) w).
Proof.
  intros request Hmax Hreply Hstatus Hbody Hitems Hlen.
  unfold _perform_search.
  pose proof (perform_search_loop_unfold self query max_results [] 1 w) as Hun.
  cbv beta zeta in Hun. rewrite Hun. clear Hun.
  replace (len (@nil pydict) <? max_results) with true
    by (symmetry; apply Z.ltb_lt; exact Hmax).
  change (true && (1 <=? 91)) with true. cbv iota.
  assert (Hpage : search_page self query max_results [] 1 w
                  = (Returns (Next (result_of <$> ds)), set_sent (sent w ++ [request]) w)).
  { unfold search_page. rewrite bind_run. unfold requests_get.
    fold request. rewrite Hreply, Hstatus. simpl.
    rewrite bind_run, lift_run, Hbody.
    rewrite bind_run, lift_run. simpl py_contains. cbv beta iota.
    rewrite bool_decide_eq_true_2 by (apply dict_get_keys; eauto).
    change (negb true) with false. cbv iota.
    rewrite bind_run, lift_run. simpl py_getitem. rewrite Hitems.
    rewrite bind_run, lift_run. simpl py_iter. cbv beta iota.
    rewrite bind_run, for_each_make_result_dicts. reflexivity. }
  rewrite Hpage.
  pose proof (perform_search_loop_unfold self query max_results (result_of <$> ds)
                (1 + 10) (set_sent (sent w ++ [request]) w)) as Hun.
  cbv beta zeta in Hun. rewrite Hun. clear Hun.
  replace (len (result_of <$> ds) <? max_results) with false
    by (symmetry; apply Z.ltb_ge; unfold len in *; rewrite length_fmap; exact Hlen).
  simpl andb. cbv iota.
  unfold slice_to.
  replace (0 <=? max_results) with true by (symmetry; apply Z.leb_le; lia).
  reflexivity.
Qed.

Lemma perform_search_single_page_witness :
  _perform_search Sample.searcher "q" 2 Sample.generous
  = (Returns (take (Z.to_nat 2)
                (result_of <$>
                   [[("title", PStr "one"); ("link", PStr "https://a.com/one")];
                    [("title", PStr "two"); ("link", PStr "https://a.com/two")];
                    [("title", PStr "three"); ("link", PStr "https://a.com/three")]])),
     set_sent (sent Sample.generous ++ [page_request Sample.searcher "q" 2 [] 1])
       Sample.generous).
Proof.
  apply (perform_search_single_page Sample.searcher "q" 2 Sample.generous
           (Response 200
              (Returns (PDict [("items", PList [Sample.item "one"; Sample.item "two";
                                                Sample.item "three"])])))
           [("items", PList [Sample.item "one"; Sample.item "two"; Sample.item "three"])]).
  - lia.
  - reflexivity.
  - reflexivity.
  - reflexivity.
  - reflexivity.
  - vm_compute. discriminate.
Defined.

(** ** More on the loop over the sites *)

Lemma perform_search_len self query max_results w l w' :
  0 <= max_results ->
  _perform_search self query max_results w = (Returns l, w') ->
  len l <= max_results.
Proof.
  intros Hmax Hrun. apply search_loop_returns_slice in Hrun as [results' ->].
  apply slice_to_length. exact Hmax.
Qed.

Lemma perform_search_at_most_10 self query max_results w :
  exists new,
    sent (snd (_perform_search self query max_results w)) = sent w ++ new
    /\ (length new <= 10)%nat.
Proof.
  destruct (search_loop_requests (turns_from 1) self query max_results [] 1 w)
    as (new & Hsent & Hoffsets).
  exists new. split; [exact Hsent|].
  destruct (le_lt_dec (length new) 10) as [Hle|Hgt]; [exact Hle|].
  destruct (lookup_lt_is_Some_2 new 10 Hgt) as [r Hr].
  destruct (Hoffsets _ _ Hr) as (H1 & H2 & _). lia.
Qed.

(** The share of each site in what the loop over the sites returns. *)
Lemma search_sites_blocks self keywords sites max_results filetypes w :
  0 <= max_results ->
  exists blocks w',
    search_sites self keywords sites max_results filetypes [] w
    = (Returns (concat blocks), w')
    /\ Forall2
         (fun site block =>
            len block <= max_results
            /\ Forall (fun r => dict_get "source_site" r = Some (PStr site)) block)
         sites blocks.
Proof.
  intros Hmax. revert w.
  induction sites as [|site rest IH]; intros w.
  - exists [], w. split; [reflexivity | constructor].
  - rewrite search_sites_cons.
    destruct (_perform_search _ _ _ _) as [[results|e] w1] eqn:Hrun.
    + destruct (IH (snd (sleep 1 w1))) as (blocks & w' & Hrest & Hall).
      destruct (search_sites_returns self keywords rest max_results filetypes
                  ([] ++ (tag site keywords <$> results)) (snd (sleep 1 w1)))
        as (found & w'' & H0 & H1).
      rewrite Hrest in H0. injection H0 as <- <-.
      exists ((tag site keywords <$> results) :: blocks), w'.
      split; [rewrite H1; reflexivity|].
      constructor; [|exact Hall]. split.
      * unfold len. rewrite length_fmap.
        apply (perform_search_len _ _ _ _ _ _ Hmax Hrun).
      * apply Forall_fmap, Forall_forall. intros r _. apply tag_source_site.
    + destruct (IH (snd (print (error_line site e) w1))) as (blocks & w' & Hrest & Hall).
      exists ([] :: blocks), w'. split; [exact Hrest|].
      constructor; [|exact Hall]. split; [unfold len; simpl; lia | constructor].
Qed.

(** X19. The aggregate of [search_books] is made of one block per site,
    in the order of the sites: the results of a block all carry its site,
    and for a cap that is not negative a block has at most
    [max_results_per_site] results, so the aggregate has at most that many
    times the number of sites. *)
Theorem search_books_blocks self keywords sites max_results_per_site filetypes w :
  0 <= max_results_per_site ->
  exists blocks w',
    search_books self keywords sites max_results_per_site filetypes w
    = (Returns (concat blocks), w')
    /\ Forall2
         (fun site block =>
            len block <= max_results_per_site
            /\ Forall (fun r => dict_get "source_site" r = Some (PStr site)) block)
         (default (ebook_sites self) sites) blocks
    /\ len (concat blocks)
       <= max_results_per_site * len (default (ebook_sites self) sites).
Proof.
  intros Hmax. unfold search_books.
  destruct (search_sites_blocks self keywords (default (ebook_sites self) sites)
              max_results_per_site filetypes w Hmax) as (blocks & w' & Hrun & Hall).
  exists blocks, w'. split; [exact Hrun|]. split; [exact Hall|].
  clear Hrun. induction Hall as [|site block sites' blocks' [Hlen _] _ IH].
  - unfold len. simpl. lia.
  - unfold len in *. simpl. rewrite length_app. lia.
Qed.

Lemma search_books_blocks_witness :
  exists blocks w',
    search_books Sample.searcher ["x"] (Some ["a.com"; "b.org"; "c.net"]) 1 None Sample.flaky
    = (Returns (concat blocks), w')
    /\ Forall2
         (fun site block =>
            len block <= 1
            /\ Forall (fun r => dict_get "source_site" r = Some (PStr site)) block)
         (default (ebook_sites Sample.searcher) (Some ["a.com"; "b.org"; "c.net"])) blocks
    /\ len (concat blocks)
       <= 1 * len (default (ebook_sites Sample.searcher) (Some ["a.com"; "b.org"; "c.net"])).
Proof.
  apply (search_books_blocks Sample.searcher ["x"] (Some ["a.com"; "b.org"; "c.net"]) 1
           None Sample.flaky).
  lia.
Defined.

(** The sample run: one result from a.com, none from b.org, whose
    searches raise, one from c.net. *)
Example search_books_flaky_run :
  match fst (search_books Sample.searcher ["x"] (Some ["a.com"; "b.org"; "c.net"]) 1 None
               Sample.flaky) with
  | Returns l => dict_get "source_site" <$> l
  | Raises _ => []
  end = [Some (PStr "a.com"); Some (PStr "c.net")].
Proof. vm_compute. reflexivity. Qed.

Lemma search_sites_sent self keywords sites max_results filetypes all_results w :
  exists new,
    sent (snd (search_sites self keywords sites max_results filetypes all_results w))
    = sent w ++ new
    /\ (length new <= 10 * length sites)%nat.
Proof.
  revert all_results w.
  induction sites as [|site rest IH]; intros all_results w.
  - exists []. simpl. rewrite app_nil_r. split; [reflexivity | lia].
  - rewrite search_sites_cons.
    destruct (perform_search_at_most_10 self (build_query keywords site filetypes)
                max_results (snd (print (searching_line site) w)))
      as (new & Hnew & Hlen).
    destruct (_perform_search _ _ _ _) as [[results|e] w1]; simpl in Hnew.
    + destruct (IH (all_results ++ (tag site keywords <$> results)) (snd (sleep 1 w1)))
        as (more & Hmore & Hlen').
      exists (new ++ more).
      change (sent (snd (sleep 1 w1))) with (sent w1) in Hmore.
      rewrite Hmore, Hnew, <- app_assoc.
      split; [reflexivity|]. rewrite length_app. simpl length. lia.
    + destruct (IH all_results (snd (print (error_line site e) w1)))
        as (more & Hmore & Hlen').
      exists (new ++ more).
      change (sent (snd (print (error_line site e) w1))) with (sent w1) in Hmore.
      rewrite Hmore, Hnew, <- app_assoc.
      split; [reflexivity|]. rewrite length_app. simpl length. lia.
Qed.

(** X20. [search_books] sends at most ten requests per site. *)
Theorem search_books_request_budget self keywords sites max_results_per_site filetypes w :
  exists new,
    sent (snd (search_books self keywords sites max_results_per_site filetypes w))
    = sent w ++ new
    /\ (length new <= 10 * length (default (ebook_sites self) sites))%nat.
Proof. apply search_sites_sent. Qed.

Lemma search_sites_frame self keywords sites max_results filetypes all_results w :
  let w' := snd (search_sites self keywords sites max_results filetypes all_results w) in
  fs w' = fs w /\ environ w' = environ w /\ dotenv w' = dotenv w /\ api w' = api w
  /\ slept w <= slept w' <= slept w + len sites.
Proof.
  revert all_results w.
  induction sites as [|site rest IH]; intros all_results w.
  - simpl. unfold len. simpl. repeat split; lia.
  - rewrite search_sites_cons.
    destruct (search_loop_frame (turns_from 1) self (build_query keywords site filetypes)
                max_results [] 1 (snd (print (searching_line site) w)))
      as (H1 & H2 & H3 & H4 & H5).
    fold (_perform_search self (build_query keywords site filetypes) max_results
            (snd (print (searching_line site) w))) in H1, H2, H3, H4, H5.
    destruct (_perform_search _ _ _ _) as [[results|e] w1]; simpl in H1, H2, H3, H4, H5.
    + destruct (IH (all_results ++ (tag site keywords <$> results)) (snd (sleep 1 w1)))
        as (I1 & I2 & I3 & I4 & I5).
      change (fs (snd (sleep 1 w1))) with (fs w1) in I1.
      change (environ (snd (sleep 1 w1))) with (environ w1) in I2.
      change (dotenv (snd (sleep 1 w1))) with (dotenv w1) in I3.
      change (api (snd (sleep 1 w1))) with (api w1) in I4.
      change (slept (snd (sleep 1 w1))) with (slept w1 + 1) in I5.
      unfold len in *. simpl length.
      repeat split; try congruence; lia.
    + destruct (IH all_results (snd (print (error_line site e) w1)))
        as (I1 & I2 & I3 & I4 & I5).
      change (fs (snd (print (error_line site e) w1))) with (fs w1) in I1.
      change (environ (snd (print (error_line site e) w1))) with (environ w1) in I2.
      change (dotenv (snd (print (error_line site e) w1))) with (dotenv w1) in I3.
      change (api (snd (print (error_line site e) w1))) with (api w1) in I4.
      change (slept (snd (print (error_line site e) w1))) with (slept w1) in I5.
      unfold len in *. simpl length.
      repeat split; try congruence; lia.
Qed.

Lemma search_sites_slept self keywords sites max_results filetypes all_results w :
  (forall history, reply_ok (api w history)) ->
  slept (snd (search_sites self keywords sites max_results filetypes all_results w))
  = slept w + len sites.
Proof.
  revert all_results w.
  induction sites as [|site rest IH]; intros all_results w Hok.
  - simpl. unfold len. simpl. lia.
  - rewrite search_sites_cons.
    destruct (search_loop_frame (turns_from 1) self (build_query keywords site filetypes)
                max_results [] 1 (snd (print (searching_line site) w)))
      as (_ & _ & _ & Hslept & Hapi).
    destruct (search_loop_total (turns_from 1) self (build_query keywords site filetypes)
                max_results [] 1 (snd (print (searching_line site) w)) Hok)
      as (l & w1 & Hrun).
    fold (_perform_search self (build_query keywords site filetypes) max_results
            (snd (print (searching_line site) w))) in Hslept, Hapi, Hrun.
    rewrite Hrun in *. simpl in Hslept, Hapi.
    rewrite IH by (intros history; simpl; rewrite Hapi; apply Hok).
    change (slept (snd (sleep 1 w1))) with (slept w1 + 1).
    unfold len. rewrite Hslept. simpl length. lia.
Qed.

(** X21. [search_books] writes no file and changes no environment
    variable; it sleeps one second after each search that returns, so at
    most one second per site, and exactly that when every answer of the
    API is well-formed. *)
Theorem search_books_sleeps self keywords sites max_results_per_site filetypes w :
  let w' := snd (search_books self keywords sites max_results_per_site filetypes w) in
  let n := len (default (ebook_sites self) sites) in
  fs w' = fs w /\ environ w' = environ w
  /\ slept w <= slept w' <= slept w + n
  /\ ((forall history, reply_ok (api w history)) -> slept w' = slept w + n).
Proof.
  unfold search_books.
  destruct (search_sites_frame self keywords (default (ebook_sites self) sites)
              max_results_per_site filetypes [] w) as (H1 & H2 & _ & _ & H5).
  repeat split; try assumption; try apply H5.
  apply search_sites_slept.
Qed.

(** X22. [search_books] announces every site it searches: the line for
    each site of the list is on the console at the end, whether the search
    of the site returned or raised. *)
Theorem search_books_announces self keywords sites max_results_per_site filetypes w site :
  site ∈ default (ebook_sites self) sites ->
  ("Searching on " +:+ site +:+ "...")
    ∈ console (snd (search_books self keywords sites max_results_per_site filetypes w)).
Proof.
  unfold search_books. generalize (@nil pydict) as all_results.
  generalize (default (ebook_sites self) sites) as l. clear sites.
  intros l all_results Hin. revert all_results w.
  induction l as [|s rest IH]; intros all_results w; [inversion Hin|].
  rewrite search_sites_cons.
  apply elem_of_cons in Hin as [Heq | Hin'].
  - subst s.
    pose proof (search_loop_console (turns_from 1) self (build_query keywords site filetypes)
                  max_results_per_site [] 1 (snd (print (searching_line site) w))) as Hrun.
    fold (_perform_search self (build_query keywords site filetypes) max_results_per_site
            (snd (print (searching_line site) w))) in Hrun.
    assert (Hmine : searching_line site ∈ console (snd (print (searching_line site) w)))
      by (simpl; apply elem_of_app; right; left).
    destruct (_perform_search _ _ _ _) as [[results|e] w1]; simpl in Hrun.
    + pose proof (search_sites_console self keywords rest max_results_per_site filetypes
                    (all_results ++ (tag site keywords <$> results)) (snd (sleep 1 w1)))
        as [k2 Hk2].
      destruct Hrun as [k1 Hk1]. rewrite Hk2. simpl. rewrite Hk1.
      apply elem_of_app. left. apply elem_of_app. left. exact Hmine.
    + pose proof (search_sites_console self keywords rest max_results_per_site filetypes
                    all_results (snd (print (error_line site e) w1))) as [k2 Hk2].
      destruct Hrun as [k1 Hk1]. rewrite Hk2. simpl. rewrite Hk1.
      apply elem_of_app. left. apply elem_of_app. left. apply elem_of_app. left.
      exact Hmine.
  - destruct (_perform_search _ _ _ _) as [[results|e] w1]; apply IH; exact Hin'.
Qed.

Lemma search_books_announces_witness :
  "Searching on b.org..."
    ∈ console (snd (search_books Sample.searcher ["x"] (Some ["a.com"; "b.org"; "c.net"])
                      1 None Sample.flaky)).
Proof.
  apply (search_books_announces Sample.searcher ["x"] (Some ["a.com"; "b.org"; "c.net"])
           1 None Sample.flaky "b.org").
  simpl. right. left.
Defined.

Lemma tag_other_field site keywords result key :
  key <> "source_site" ->
  key <> "search_keywords" ->
  dict_get key (tag site keywords result) = dict_get key result.
Proof.
  intros H1 H2. unfold tag.
  rewrite dict_get_set_ne by congruence. apply dict_get_set_ne. congruence.
Qed.

(** X23. Tagging a result changes none of its other fields. *)
Theorem tag_keeps_fields site keywords result key :
  key <> "source_site" ->
  key <> "search_keywords" ->
  dict_get key (tag site keywords result) = dict_get key result.
Proof. apply tag_other_field. Qed.

Lemma tag_keeps_fields_witness :
  dict_get "title" (tag "a.com" ["x"] [("title", PStr "T"); ("source_site", PStr "old")])
  = dict_get "title" [("title", PStr "T"); ("source_site", PStr "old")].
Proof.
  apply (tag_keeps_fields "a.com" ["x"] [("title", PStr "T"); ("source_site", PStr "old")]
           "title"); discriminate.
Defined.

(** ** More on saving *)






(** The file of two results with different keys: three columns, and an
    empty field where a result lacks the key. *)
Example save_results_mixed_keys :
  let results := [[("title", PStr "T"); ("link", PStr "L")];
                  [("link", PStr "M"); ("pages", PStr "12")]] in
  csv_read (to_csv false (DataFrame_of Sample.cell_text results))
  = [["title"; "link"; "pages"]; ["T"; "L"; EmptyString]; [EmptyString; "M"; "12"]].
Proof. vm_compute. reflexivity. Qed.










(** The file of the sample run: the header and four rows, two for each
    of the two sites of the searcher. *)
Example search_books_csv_sample :
  let run := search_books Sample.searcher ["x"] None 2 None Sample.generous in
  csv_read (to_csv false (DataFrame_of Sample.cell_text (found_by (fst run))))
  = [["title"; "link"; "snippet"; "displayLink"; "formattedUrl";
      "source_site"; "search_keywords"];
     ["one"; "https://a.com/one"; EmptyString; EmptyString; EmptyString; "a.com"; "['x']"];
     ["two"; "https://a.com/two"; EmptyString; EmptyString; EmptyString; "a.com"; "['x']"];
     ["one"; "https://a.com/one"; EmptyString; EmptyString; EmptyString; "b.org"; "['x']"];
     ["two"; "https://a.com/two"; EmptyString; EmptyString; EmptyString; "b.org"; "['x']"]].
Proof. vm_compute. reflexivity. Qed.

(** ** Showing the results *)

Lemma display_result_showable py_repr i result w :
  showable result ->
  exists l1 l2 l3 l4 l5,
    display_result py_repr i result w
    = (Returns tt, set_console (console w ++ [l1; l2; l3; l4; l5]) w).
Proof.
  intros ([title Htitle] & [link Hlink] & [s Hsnippet]).
  unfold display_result, mbind, M_bind, lift, print, set_console. simpl.
  rewrite Htitle. simpl. rewrite Hlink. simpl. rewrite Hsnippet. simpl.
  do 5 eexists. rewrite <- !app_assoc. reflexivity.
Qed.

Lemma display_each_showable py_repr i shown w :
  Forall showable shown ->
  exists lines,
    display_each py_repr i shown w = (Returns tt, set_console (console w ++ lines) w)
    /\ (length lines = 5 * length shown)%nat.
Proof.
  intros Hall. revert i w. induction Hall as [|result rest Hresult _ IH]; intros i w.
  - exists []. simpl. rewrite app_nil_r. split; [destruct w|]; reflexivity.
  - simpl display_each. rewrite bind_run.
    destruct (display_result_showable py_repr i result w Hresult)
      as (l1 & l2 & l3 & l4 & l5 & ->).
    destruct (IH (i + 1) (set_console (console w ++ [l1; l2; l3; l4; l5]) w))
      as (lines & -> & Hlen).
    exists ([l1; l2; l3; l4; l5] ++ lines). split.
    + unfold set_console. simpl. rewrite <- app_assoc. reflexivity.
    + rewrite length_app. simpl length. lia.
Qed.

Lemma display_results_shown py_repr result more limit w :
  let results := result :: more in
  0 <= limit ->
  Forall showable results ->
  exists lines,
    display_results py_repr results (Some limit) w
    = (Returns tt, set_console (console w ++ lines) w)
    /\ Z.of_nat (length lines) = 1 + 5 * Z.min (len results) limit.
Proof.
  intros results Hlimit Hall. unfold display_results. simpl default. subst results.
  cbv iota. rewrite bind_run. unfold print at 1. cbv beta iota.
  set (results := result :: more) in *.
  set (headline := String LF ("=== " +:+ Str.of_Z (len results) +:+ " results found ===")
                     +:+ String LF EmptyString).
  change (default 20 (Some limit)) with limit.
  assert (Hshown : Forall showable (slice_to results limit)).
  { destruct (slice_to_sublist results limit) as [k Hk].
    rewrite Hk in Hall. apply Forall_app in Hall as [H _]. exact H. }
  destruct (display_each_showable py_repr 1 (slice_to results limit)
              (set_console (console w ++ [headline]) w) Hshown) as (lines & -> & Hlen).
  exists (headline :: lines). split.
  - unfold set_console. simpl. rewrite <- app_assoc. reflexivity.
  - simpl length. rewrite Nat2Z.inj_succ, Hlen.
    unfold slice_to. replace (0 <=? limit) with true by (symmetry; apply Z.leb_le; lia).
    rewrite length_take. unfold len. lia.
Qed.

(** X26. [display_results] shows at most [limit] results.  For showable
    results and a limit that is not negative it returns after printing one
    headline and five lines for each of the first [min(N, limit)]
    results. *)
Theorem display_results_lines py_repr result more limit w :
  let results := result :: more in
  0 <= limit ->
  Forall showable results ->
  exists lines,
    display_results py_repr results (Some limit) w
    = (Returns tt, set_console (console w ++ lines) w)
    /\ Z.of_nat (length lines) = 1 + 5 * Z.min (len results) limit.
Proof. apply display_results_shown. Qed.

Lemma display_results_lines_witness :
  exists lines,
    display_results (fun _ => EmptyString)
      ([("title", PStr "T"); ("link", PStr "L"); ("snippet", PStr "S")]
         :: [[("title", PStr "U"); ("link", PStr "M"); ("snippet", PStr "R")]])
      (Some 1) Sample.generous
    = (Returns tt, set_console (console Sample.generous ++ lines) Sample.generous)
    /\ Z.of_nat (length lines)
       = 1 + 5 * Z.min
                   (len ([("title", PStr "T"); ("link", PStr "L"); ("snippet", PStr "S")]
                           :: [[("title", PStr "U"); ("link", PStr "M");
                                ("snippet", PStr "R")]]))
                   1.
Proof.
  apply (display_results_lines (fun _ => EmptyString)
           [("title", PStr "T"); ("link", PStr "L"); ("snippet", PStr "S")]
           [[("title", PStr "U"); ("link", PStr "M"); ("snippet", PStr "R")]]
           1 Sample.generous).
  - lia.
  - repeat (apply Forall_cons_2; [repeat split; simpl; eauto|]). apply Forall_nil_2.
Defined.

Lemma display_result_frame py_repr i result w :
  let w' := snd (display_result py_repr i result w) in
  sent w' = sent w /\ fs w' = fs w /\ environ w' = environ w /\ slept w' = slept w
  /\ console w `prefix_of` console w'.
Proof.
  unfold display_result, mbind, M_bind, lift, print, set_console. simpl.
  destruct (dict_get "title" result); simpl;
    [|repeat split; reflexivity].
  destruct (dict_get "link" result); simpl;
    [|repeat split; try reflexivity; rewrite <- app_assoc; apply prefix_app_r; reflexivity].
  destruct (dict_get "snippet" result) as [snippet|]; simpl;
    [|repeat split; try reflexivity; rewrite <- !app_assoc; apply prefix_app_r; reflexivity].
  destruct (py_slice_to snippet 100); simpl;
    repeat split; try reflexivity; rewrite <- !app_assoc; apply prefix_app_r; reflexivity.
Qed.

Lemma display_each_frame py_repr i shown w :
  let w' := snd (display_each py_repr i shown w) in
  sent w' = sent w /\ fs w' = fs w /\ environ w' = environ w /\ slept w' = slept w
  /\ console w `prefix_of` console w'.
Proof.
  revert i w. induction shown as [|result rest IH]; intros i w.
  - simpl. repeat split; reflexivity.
  - simpl display_each. rewrite bind_run.
    destruct (display_result_frame py_repr i result w) as (H1 & H2 & H3 & H4 & H5).
    destruct (display_result py_repr i result w) as [[[]|e] w1];
      simpl in H1, H2, H3, H4, H5; [|repeat split; assumption].
    destruct (IH (i + 1) w1) as (I1 & I2 & I3 & I4 & I5).
    simpl. repeat split; try congruence. etransitivity; eassumption.
Qed.

(** X27. Whatever the results hold, and whether it returns or raises,
    [display_results] only adds lines to the console: it sends no request,
    writes no file and does not sleep. *)
Theorem display_results_frame py_repr results limit w :
  let w' := snd (display_results py_repr results limit w) in
  sent w' = sent w /\ fs w' = fs w /\ environ w' = environ w /\ slept w' = slept w
  /\ console w `prefix_of` console w'.
Proof.
  unfold display_results. destruct results as [|result more].
  - simpl. repeat split; try reflexivity. apply prefix_app_r. reflexivity.
  - rewrite bind_run. unfold print at 1. cbv beta iota.
    match goal with
    | |- context [display_each py_repr 1 ?shown ?w0] =>
        destruct (display_each_frame py_repr 1 shown w0) as (H1 & H2 & H3 & H4 & H5)
    end.
    simpl in H1, H2, H3, H4, H5. cbv zeta.
    repeat split; try assumption.
    etransitivity; [|exact H5]. apply prefix_app_r. reflexivity.
Qed.

(** X28. [display_results] raises a [TypeError] when the snippet of the
    first result is a number, a boolean or [None], as an item of a JSON
    answer may have it: the headline and the first three lines of the
    result are printed, the rest is not shown. *)
Theorem display_results_unsliceable_snippet py_repr result more limit w title link snippet :
  1 <= limit ->
  dict_get "title" result = Some title ->
  dict_get "link" result = Some link ->
  dict_get "snippet" result = Some snippet ->
  unsliceable snippet ->
  exists msg lines,
    display_results py_repr (result :: more) (Some limit) w
    = (Raises (Exn TypeError msg), set_console (console w ++ lines) w)
    /\ length lines = 4%nat.
Proof.
  intros Hlimit Htitle Hlink Hsnippet Hbad.
  unfold display_results. simpl default. cbv iota.
  rewrite bind_run. unfold print at 1. cbv beta iota.
  assert (Hshown : exists rest, slice_to (result :: more) limit = result :: rest).
  { unfold slice_to. replace (0 <=? limit) with true by (symmetry; apply Z.leb_le; lia).
    destruct (Z.to_nat limit) as [|n] eqn:E; [lia|]. simpl. eauto. }
  destruct Hshown as [rest ->].
  simpl display_each. rewrite bind_run.
  unfold display_result, mbind, M_bind, lift, print, set_console. simpl.
  rewrite Htitle. simpl. rewrite Hlink. simpl. rewrite Hsnippet. simpl.
  destruct snippet; try contradiction; simpl;
    do 2 eexists; (split; [rewrite <- !app_assoc; reflexivity | reflexivity]).
Qed.

Lemma display_results_unsliceable_snippet_witness :
  exists msg lines,
    display_results (fun _ => EmptyString)
      [[("title", PStr "T"); ("link", PStr "L"); ("snippet", PInt 7)]]
      (Some 20) Sample.generous
    = (Raises (Exn TypeError msg), set_console (console Sample.generous ++ lines) Sample.generous)
    /\ length lines = 4%nat.
Proof.
  apply (display_results_unsliceable_snippet (fun _ => EmptyString)
           [("title", PStr "T"); ("link", PStr "L"); ("snippet", PInt 7)] [] 20
           Sample.generous (PStr "T") (PStr "L") (PInt 7)).
  - lia.
  - reflexivity.
  - reflexivity.
  - reflexivity.
  - exact I.
Defined.

Lemma for_each_make_result_objects items new w w' :
  for_each make_result items w = (Returns new, w') ->
  exists ds, items = PDict <$> ds /\ new = result_of <$> ds.
Proof.
  revert new w'. induction items as [|item items IH]; intros new w'; simpl.
  - intros [= <- <-]. exists []. split; reflexivity.
  - rewrite bind_run.
    destruct (make_result item w) as [[r|e] w1] eqn:Hitem; [|discriminate].
    apply make_result_returns in Hitem as (d & -> & -> & ->).
    cbv beta iota. rewrite bind_run.
    destruct (for_each make_result items w) as [[rs|e] w2] eqn:Hrest; [|discriminate].
    destruct (IH _ _ eq_refl) as (ds & -> & ->).
    cbv beta iota. intros [= <- <-]. exists (d :: ds). split; reflexivity.
Qed.

Lemma search_page_next_objects self query max_results results start_index w results' w' :
  search_page self query max_results results start_index w = (Returns (Next results'), w') ->
  exists resp data items ds,
    api w (sent w ++ [page_request self query max_results results start_index])
    = HttpReply resp
    /\ json_body resp = Returns data
    /\ py_getitem data "items" = Returns items
    /\ py_iter items = Returns (PDict <$> ds)
    /\ results' = results ++ (result_of <$> ds).
Proof.
  unfold search_page. rewrite bind_run. unfold requests_get.
  destruct (api w _) as [e|resp]; [discriminate|].
  destruct (negb _); [discriminate|].
  rewrite bind_run, lift_run.
  destruct (json_body resp) as [data|e] eqn:Hbody; [|discriminate].
  rewrite bind_run, lift_run.
  destruct (py_contains "items" data) as [[|]|e]; simpl; try discriminate.
  rewrite bind_run, lift_run.
  destruct (py_getitem data "items") as [items|e] eqn:Hitems; [|discriminate].
  rewrite bind_run, lift_run.
  destruct (py_iter items) as [elements|e] eqn:Helements; [|discriminate].
  rewrite bind_run.
  destruct (for_each make_result elements _) as [[new|e] w1] eqn:Hnew; [|discriminate].
  apply for_each_make_result_objects in Hnew as (ds & -> & ->).
  intros [= <- <-]. exists resp, data, items, ds. repeat split; assumption.
Qed.

Lemma result_of_showable d :
  text_or_absent (dict_get "snippet" d) -> showable (result_of d).
Proof.
  intros Hsnippet. unfold showable, result_of. simpl.
  split; [eauto|]. split; [eauto|].
  destruct (dict_get "snippet" d) as [[]|]; try contradiction; simpl; eauto.
Qed.

Lemma search_loop_showable fuel self query max_results results start_index w l w' :
  snippets_are_text (api w) ->
  Forall showable results ->
  search_loop fuel self query max_results results start_index w = (Returns l, w') ->
  Forall showable l.
Proof.
  revert results start_index w.
  assert (Hslice : forall results : list pydict,
             Forall showable results -> Forall showable (slice_to results max_results)).
  { intros results H. destruct (slice_to_sublist results max_results) as [k Hk].
    rewrite Hk in H. apply Forall_app in H as [H _]. exact H. }
  induction fuel as [|fuel IH]; intros results start_index w Htext Hall; simpl;
    destruct ((len results <? max_results) && (start_index <=? 91));
    try (intros [= <- <-]; auto; fail).
  rewrite bind_run.
  pose proof (search_page_api self query max_results results start_index w) as Hapi.
  destruct (search_page self query max_results results start_index w)
    as [[[|results']|e] w1] eqn:Hpage; simpl in Hapi; try (intros [= <- <-]; auto; fail).
  apply search_page_next_objects in Hpage
    as (resp & data & items & ds & Hreply & Hbody & Hitems & Hiter & ->).
  apply IH; [rewrite Hapi; exact Htext|].
  apply Forall_app. split; [exact Hall|].
  apply Forall_fmap, Forall_forall. intros d Hd. simpl. apply result_of_showable.
  apply (Htext _ _ _ _ _ d Hreply Hbody Hitems Hiter).
  apply list_elem_of_fmap. eauto.
Qed.

Lemma tag_showable site keywords result :
  showable result -> showable (tag site keywords result).
Proof.
  intros (H1 & H2 & s & H3). unfold showable.
  rewrite !tag_other_field by discriminate. eauto.
Qed.

Lemma search_sites_showable self keywords sites max_results filetypes all_results w l w' :
  snippets_are_text (api w) ->
  Forall showable all_results ->
  search_sites self keywords sites max_results filetypes all_results w = (Returns l, w') ->
  Forall showable l.
Proof.
  revert all_results w.
  induction sites as [|site rest IH]; intros all_results w Htext Hall.
  - intros [= <- <-]. exact Hall.
  - rewrite search_sites_cons.
    destruct (search_loop_frame (turns_from 1) self (build_query keywords site filetypes)
                max_results [] 1 (snd (print (searching_line site) w)))
      as (_ & _ & _ & _ & Hapi).
    fold (_perform_search self (build_query keywords site filetypes) max_results
            (snd (print (searching_line site) w))) in Hapi.
    destruct (_perform_search _ _ _ _) as [[results|e] w1] eqn:Hrun; simpl in Hapi.
    + apply IH; [simpl; rewrite Hapi; exact Htext|].
      apply Forall_app. split; [exact Hall|].
      apply Forall_fmap. eapply Forall_impl; [|intros r; apply tag_showable].
      apply (search_loop_showable _ _ _ _ _ _ (snd (print (searching_line site) w)) _ _
               Htext (Forall_nil_2 _) Hrun).
    + apply IH; [simpl; rewrite Hapi; exact Htext | exact Hall].
Qed.

(** X29. What [search_books] returns can be shown: when the snippets in
    the answers of the API are texts (or absent), [display_results] on a
    non-empty aggregate of [search_books] returns, having printed the
    headline and five lines for each of the first [min(N, limit)]
    results. *)
Theorem display_results_of_search_books
    py_repr self keywords sites max_results_per_site filetypes w l w' limit :
  snippets_are_text (api w) ->
  search_books self keywords sites max_results_per_site filetypes w = (Returns l, w') ->
  l <> [] ->
  0 <= limit ->
  exists lines,
    display_results py_repr l (Some limit) w'
    = (Returns tt, set_console (console w' ++ lines) w')
    /\ Z.of_nat (length lines) = 1 + 5 * Z.min (len l) limit.
Proof.
  intros Htext Hrun Hne Hlimit.
  apply search_sites_showable in Hrun; [|exact Htext | constructor].
  destruct l as [|r l]; [congruence|].
  apply display_results_shown; assumption.
Qed.

Lemma generous_snippets_are_text : snippets_are_text (api Sample.generous).
Proof.
  intros history resp data items elements d Hreply Hbody Hitems Hiter Hd.
  simpl in Hreply. injection Hreply as <-. simpl in Hbody. injection Hbody as <-.
  simpl in Hitems. injection Hitems as <-. simpl in Hiter. injection Hiter as <-.
  repeat (apply elem_of_cons in Hd as [[= ->] | Hd]; [exact I|]).
  inversion Hd.
Qed.

Lemma display_results_of_search_books_witness :
  let run := search_books Sample.searcher ["x"] None 2 None Sample.generous in
  let l := match fst run with Returns l => l | Raises _ => [] end in
  exists lines,
    display_results (fun _ => EmptyString) l (Some 3) (snd run)
    = (Returns tt, set_console (console (snd run) ++ lines) (snd run))
    /\ Z.of_nat (length lines) = 1 + 5 * Z.min (len l) 3.
Proof.
  intros run l.
  apply (display_results_of_search_books (fun _ => EmptyString) Sample.searcher ["x"]
           None 2 None Sample.generous l (snd run) 3).
  - exact generous_snippets_are_text.
  - vm_compute. reflexivity.
  - vm_compute. discriminate.
  - lia.
Defined.
